(** * reliable_mock.py: the mock vector-database HTTP handler

    A shallow embedding of [scripts/phase_4_2_2/reliable_mock.py].

    The script defines one request-handler class, [ReliableMock], with two
    class attributes ([count], [start_time]) and two handler methods
    ([do_GET], [do_POST]); an [HTTPServer] serves requests one after the
    other.

    Modelling choices, all stated where they are made:
    - Python [int] is [Z]; a finite Python [float] is the rational it
      denotes.  Clock readings and their differences are taken as exact;
      the quotient [count / elapsed] is rounded to the nearest binary64
      value, as the division does, before it is formatted;
    - text and bytes are [string]: the request path and header values are
      the Latin-1 characters the framework decodes, JSON text is carried as
      its bytes;
    - a handler is a computation in a monad that threads the class
      attributes, logs what is sent on the connection and printed, and may
      stop with an uncaught exception (keeping state and log, as Python
      does);
    - the [json] module is a pair of functions the development is
      parameterised by. *)

From Stdlib Require Import ZArith QArith Qround Qabs List String Ascii Bool Lia.
From Stdlib Require Import DecimalString.
From Stdlib Require DecimalPos DecimalZ.
Import ListNotations.

Local Open Scope string_scope.
Local Open Scope Z_scope.

(** ** Python values and exceptions *)

(** The exception classes that the handlers and the library calls they make
    can raise. *)
Inductive exn : Type :=
| ValueError
| OverflowError
| AttributeError
| MemoryError
| TypeError
| JSONDecodeError
| UnicodeDecodeError
| RecursionError.

Inductive result (A : Type) : Type :=
| Ok (a : A)
| Raise (e : exn).
Arguments Ok {A} a.
Arguments Raise {A} e.

(** The objects [json.loads] can return and [json.dumps] is given here.  A
    [dict] keeps its insertion order.  The handlers never compute with a
    [float] that came from JSON: it is carried by its [repr]. *)
#[warnings="-register-all"]
Inductive pyval : Type :=
| PyNone
| PyBool (b : bool)
| PyInt (z : Z)
| PyFloat (repr : string)
| PyStr (s : string)
| PyList (l : list pyval)
| PyDict (d : list (string * pyval)).

(** ** Builtins used by the handlers *)

Module Py.

(** [needle in hay] on [str]: substring containment. *)
Fixpoint str_in (needle hay : string) : bool :=
  if String.prefix needle hay then true
  else match hay with
       | EmptyString => false
       | String _ rest => str_in needle rest
       end.

(** [str(n)] for an [int], as an f-string field [{n}] renders it. *)
Definition str (n : Z) : string := NilZero.string_of_int (Z.to_int n).

(** [int(x)] for a [float]: truncation toward zero. *)
Definition int_of_float (x : Q) : Z := Z.quot (Qnum x) (Zpos (Qden x)).

(** Characters that [int(s)] skips at both ends of [s]: the ASCII white
    space and, among the other Latin-1 characters, NEL and NBSP. *)
Definition is_space (c : ascii) : bool :=
  let n := N_of_ascii c in
  ((9 <=? n) && (n <=? 13) || (n =? 32) || (n =? 133) || (n =? 160))%N.

Definition is_digit (c : ascii) : bool :=
  let n := N_of_ascii c in ((48 <=? n) && (n <=? 57))%N.

Definition digit_val (c : ascii) : Z := Z.of_N (N_of_ascii c) - 48.

Fixpoint lstrip (s : list ascii) : list ascii :=
  match s with
  | c :: rest => if is_space c then lstrip rest else s
  | [] => []
  end.

Definition strip (s : list ascii) : list ascii :=
  rev (lstrip (rev (lstrip s))).

(** Decimal digits with single underscores between them.  Returns the value
    and the number of digits read. *)
Fixpoint digits (acc : Z) (n : nat) (after_digit : bool) (s : list ascii)
  : option (Z * nat) :=
  match s with
  | [] => if after_digit then Some (acc, n) else None
  | c :: rest =>
      if is_digit c then digits (10 * acc + digit_val c) (S n) true rest
      else if Ascii.eqb c "_"%char
           then if after_digit then digits acc n false rest else None
           else None
  end.

(** [sys.get_int_max_str_digits()], at its default. *)
Definition int_max_str_digits : nat := 4300.

(** [int(s)] for a [str], base 10. *)
Definition int (s : string) : result Z :=
  let body := strip (list_ascii_of_string s) in
  let '(negative, ds) :=
    match body with
    | "-"%char :: rest => (true, rest)
    | "+"%char :: rest => (false, rest)
    | _ => (false, body)
    end in
  match digits 0 0 false ds with
  | Some (v, n) =>
      if (n <=? int_max_str_digits)%nat
      then Ok (if negative then - v else v)
      else Raise ValueError
  | None => Raise ValueError
  end.

(** [x > y] on [float]s. *)
Definition float_gt (x y : Q) : bool := negb (Qle_bool x y).

(** The integer nearest to [x], ties to even. *)
Definition round_half_even (x : Q) : Z :=
  let f := Qfloor x in
  match Qcompare (x - inject_Z f) (1 # 2) with
  | Lt => f
  | Gt => f + 1
  | Eq => if Z.even f then f else f + 1
  end.

(** [format(x, '.1f')] for the finite [float] whose value is exactly [x]:
    the decimal with one digit after the point nearest to that value, ties
    to even. *)
Definition format_1f (x : Q) : string :=
  let tenths := round_half_even (Qabs x * inject_Z 10) in
  (match Qcompare x 0 with Lt => "-" | _ => "" end)
    ++ str (tenths / 10) ++ "." ++ str (tenths mod 10).

(** The result of an arithmetic operation on [float]s: a finite binary64
    value, given as the rational it denotes, or an infinity. *)
Inductive float : Type :=
| Finite (x : Q)
| Inf (negative : bool).

Definition pow2 (e : Z) : Q := Qpower 2 e.

(** For [a > 0], the exponent [e] with [2^e <= a < 2^(e+1)]. *)
Definition ilog2 (a : Q) : Z :=
  let k := Z.log2 (Qnum a) - Z.log2 (Zpos (Qden a)) in
  if Qle_bool (pow2 k) a then k else k - 1.

(** Rounding of a real to binary64, to nearest with ties to even: 53
    significant bits, a least unit of [2^-1074], an infinity from [2^1024]
    on. *)
Definition round_double (x : Q) : float :=
  if Qeq_bool x 0 then Finite 0
  else
    let negative := match Qcompare x 0 with Lt => true | _ => false end in
    let a := Qabs x in
    let p := Z.max (ilog2 a - 52) (-1074) in
    let v := Qred (inject_Z (round_half_even (a / pow2 p)) * pow2 p) in
    if Qle_bool (pow2 1024) v then Inf negative
    else Finite (if negative then Qopp v else v).

(** [a / b] for an [int] [a] and a nonzero finite [float] [b]: [a] becomes
    the nearest [float], then the quotient is rounded.  An [int] too large
    for a [float] (from about [2^1024]; the counter would have to get
    there) makes Python raise instead; that is outside the model, which
    gives an infinity. *)
Definition truediv (a : Z) (b : Q) : float :=
  match round_double (inject_Z a) with
  | Finite fa => round_double (fa / b)
  | Inf negative =>
      Inf (match Qcompare b 0 with Lt => negb negative | _ => negative end)
  end.

(** [format(x, '.1f')] for a [float]. *)
Definition format_float_1f (x : float) : string :=
  match x with
  | Finite q => format_1f q
  | Inf false => "inf"
  | Inf true => "-inf"
  end.

(** [d.get(key, default)] on a [dict]. *)
Fixpoint dict_get (d : list (string * pyval)) (key : string) : option pyval :=
  match d with
  | [] => None
  | (k, v) :: rest => if String.eqb k key then Some v else dict_get rest key
  end.

(** [data.get(key, default)] on whatever [json.loads] returned: only a
    [dict] has the method. *)
Definition get (data : pyval) (key : string) (default : pyval) : result pyval :=
  match data with
  | PyDict d =>
      Ok (match dict_get d key with Some v => v | None => default end)
  | _ => Raise AttributeError
  end.

End Py.

(** ** The framework objects a handler sees *)

(** [self.headers]: the parsed header lines, in order.  [get] compares names
    without regard to case and returns the first match; header names are
    ASCII. *)
Module Headers.

Definition lower (c : ascii) : ascii :=
  let n := N_of_ascii c in
  if ((65 <=? n) && (n <=? 90))%N then ascii_of_N (n + 32) else c.

Fixpoint str_lower (s : string) : string :=
  match s with
  | EmptyString => EmptyString
  | String c rest => String (lower c) (str_lower rest)
  end.

Fixpoint get (hs : list (string * string)) (name : string) : option string :=
  match hs with
  | [] => None
  | (k, v) :: rest =>
      if String.eqb (str_lower k) (str_lower name) then Some v
      else get rest name
  end.

End Headers.

(** [self.rfile]: a buffered reader over the bytes the client sends before
    it closes its side.  [read(-1)] returns all of them and other negative
    sizes are refused.  [read(size)] first obtains a [bytes] object of
    [size] bytes: a size above [max_bytes] (the largest [bytes] object, 33
    bytes of header short of [sys.maxsize]) is refused with
    [OverflowError], and when the interpreter cannot provide the memory the
    call ends with [MemoryError]; [available] says for which sizes it can.
    Then at most [size] bytes are returned.  Waiting for bytes is outside
    the model. *)
Module BufferedReader.

Definition maxsize : Z := 2 ^ 63 - 1.

Definition max_bytes : Z := maxsize - 33.

Definition read (available : Z -> bool) (data : string) (size : Z)
  : result string :=
  if size =? -1 then Ok data
  else if size <? 0 then Raise ValueError
  else if max_bytes <? size then Raise OverflowError
  else if available size then Ok (String.substring 0 (Z.to_nat size) data)
  else Raise MemoryError.

End BufferedReader.

Inductive command : Type := GET | POST.

(** One parsed request, as [BaseHTTPRequestHandler] hands it to a [do_*]
    method, with what the call meets in the interpreter: [can_allocate n]
    says whether a buffer of [n] bytes can be had while the request is
    handled.  Requests with another method never reach this class. *)
Record request : Type := {
  method : command;
  path : string;
  headers : list (string * string);
  rfile : string;
  can_allocate : Z -> bool
}.

(** What a handler does to the outside: the calls on the response and the
    lines printed on standard output.  [send_response] stands for the
    status line and the framework's own headers; the request log it would
    write goes through [log_message], which the class overrides to do
    nothing. *)
Inductive event : Type :=
| SendResponse (code : Z)
| SendHeader (keyword value : string)
| EndHeaders
| WfileWrite (data : string)
| Print (line : string).

(** ** The class attributes and the handler monad *)

Record ReliableMock : Type := {
  count : Z;
  start_time : Q
}.

(** The class body: [count = 0], [start_time = time.time()]. *)
Definition class_init (now : Q) : ReliableMock :=
  {| count := 0; start_time := now |}.

(** A handler computation: from the class attributes to the attributes
    afterwards, the events in order, and either a value or the exception
    that ended the call.  State and events survive an exception. *)
Definition M (A : Type) : Type :=
  ReliableMock -> ReliableMock * list event * result A.

Definition ret {A} (a : A) : M A := fun s => (s, [], Ok a).

Definition bind {A B} (m : M A) (k : A -> M B) : M B := fun s =>
  match m s with
  | (s1, out1, Ok a) =>
      let '(s2, out2, r) := k a s1 in (s2, (out1 ++ out2)%list, r)
  | (s1, out1, Raise e) => (s1, out1, Raise e)
  end.

Definition lift {A} (r : result A) : M A := fun s => (s, [], r).

Definition emit (e : event) : M unit := fun s => (s, [e], Ok tt).

Definition get_count : M Z := fun s => (s, [], Ok (count s)).

Definition set_count (c : Z) : M unit := fun s =>
  ({| count := c; start_time := start_time s |}, [], Ok tt).

Definition get_start_time : M Q := fun s => (s, [], Ok (start_time s)).

Declare Scope handler_scope.
Delimit Scope handler_scope with handler.
Notation "x <- m ;; k" := (bind m (fun x => k))
  (at level 61, m at next level, right associativity) : handler_scope.
Notation "m ;; k" := (bind m (fun _ => k))
  (at level 61, right associativity) : handler_scope.

Definition send_response (code : Z) : M unit := emit (SendResponse code).
Definition send_header (keyword value : string) : M unit :=
  emit (SendHeader keyword value).
Definition end_headers : M unit := emit EndHeaders.
Definition wfile_write (data : string) : M unit := emit (WfileWrite data).
Definition print (line : string) : M unit := emit (Print line).

(** Projections of a finished call. *)
Definition state_of {A} (r : ReliableMock * list event * result A) : ReliableMock :=
  fst (fst r).
Definition events_of {A} (r : ReliableMock * list event * result A) : list event :=
  snd (fst r).
Definition outcome_of {A} (r : ReliableMock * list event * result A) : result A :=
  snd r.

(** The lines a call printed, the status codes it sent, and the body bytes
    it wrote. *)
Definition printed (out : list event) : list string :=
  flat_map (fun e => match e with Print l => [l] | _ => [] end) out.
Definition statuses (out : list event) : list Z :=
  flat_map (fun e => match e with SendResponse c => [c] | _ => [] end) out.
Definition body_of (out : list event) : string :=
  String.concat "" (flat_map (fun e => match e with WfileWrite d => [d] | _ => [] end) out).

(** ** The [json] module *)

(** [loads] is applied to the bytes read from the request, [dumps] stands
    for [json.dumps(obj).encode()].  Nothing is assumed of either. *)
Record json_module : Type := {
  loads : string -> result pyval;
  dumps : pyval -> string
}.

(** ** The handlers *)

Section Handlers.

Variable json : json_module.

Local Open Scope handler_scope.

(** [time.time()] is read at most once in a call; [now] is that reading. *)
Definition do_GET (now : Q) (self : request) : M unit :=
  if Py.str_in "health" (path self) then
    send_response 200 ;;
    send_header "Content-Type" "application/json" ;;
    end_headers ;;
    c <- get_count ;;
    t0 <- get_start_time ;;
    let response :=
      PyDict [("status", PyStr "healthy");
              ("requests", PyInt c);
              ("uptime", PyInt (Py.int_of_float (now - t0)%Q))] in
    wfile_write (dumps json response)
  else
    send_response 404 ;;
    end_headers.

Definition do_POST (now : Q) (self : request) : M unit :=
  if Py.str_in "vector" (path self) then
    c0 <- get_count ;;
    set_count (c0 + 1) ;;
    (* Read the data *)
    length <- lift (match Headers.get (headers self) "Content-Length" with
                    | Some v => Py.int v
                    | None => Ok 0
                    end) ;;
    vector_id <-
      (if negb (length =? 0) then
         raw <- lift (BufferedReader.read (can_allocate self) (rfile self)
                                          length) ;;
         data <- lift (loads json raw) ;;
         c <- get_count ;;
         lift (Py.get data "id" (PyStr ("vec_" ++ Py.str c)))
       else
         c <- get_count ;;
         ret (PyStr ("vec_" ++ Py.str c))) ;;
    (* Send response *)
    send_response 200 ;;
    send_header "Content-Type" "application/json" ;;
    end_headers ;;
    let response := PyDict [("id", vector_id); ("status", PyStr "inserted")] in
    wfile_write (dumps json response) ;;
    (* Progress indicator *)
    c <- get_count ;;
    if c mod 25 =? 0 then
      t0 <- get_start_time ;;
      let elapsed := (now - t0)%Q in
      let rate :=
        if Py.float_gt elapsed 0 then Py.truediv c elapsed
        else Py.Finite 0 in
      print ("Processed " ++ Py.str c ++ " vectors ("
               ++ Py.format_float_1f rate ++ "/sec)")
    else
      ret tt
  else
    send_response 404 ;;
    end_headers.

(** The framework calls [do_GET] or [do_POST] by the request's method. *)
Definition handle (now : Q) (self : request) : M unit :=
  match method self with
  | GET => do_GET now self
  | POST => do_POST now self
  end.

(** [serve_forever]: the requests are handled one after the other; each
    comes with the clock reading of its call.  An exception ends the call
    it was raised in, not the server.  The result is the attributes after
    the last call and, per request, its events and outcome. *)
Fixpoint serve_forever (incoming : list (Q * request)) (s : ReliableMock)
  : ReliableMock * list (list event * result unit) :=
  match incoming with
  | [] => (s, [])
  | (now, r) :: rest =>
      let '(s1, out, res) := handle now r s in
      let '(s2, outs) := serve_forever rest s1 in
      (s2, (out, res) :: outs)
  end.

End Handlers.

(** ** A small [json] instance

    The handlers are run on concrete requests with this codec.  It reads and
    writes the JSON texts made of objects, arrays, integers, [true],
    [false], [null] and strings of printable ASCII without escapes; any
    other text is reported as undecodable. *)
Module JsonRef.

Definition quote : ascii := "034"%char.

Definition is_ws (c : ascii) : bool :=
  let n := N_of_ascii c in ((n =? 32) || (n =? 9) || (n =? 10) || (n =? 13))%N.

Definition is_plain (c : ascii) : bool :=
  let n := N_of_ascii c in
  ((32 <=? n) && (n <=? 126) && negb (n =? 34) && negb (n =? 92))%N.

Fixpoint skip_ws (s : list ascii) : list ascii :=
  match s with
  | c :: rest => if is_ws c then skip_ws rest else s
  | [] => []
  end.

(** The rest of a string, after its opening quote. *)
Fixpoint string_tail (s : list ascii) : option (string * list ascii) :=
  match s with
  | [] => None
  | c :: rest =>
      if Ascii.eqb c quote then Some (EmptyString, rest)
      else if is_plain c then
        match string_tail rest with
        | Some (t, r) => Some (String c t, r)
        | None => None
        end
      else None
  end.

Fixpoint span_digits (s : list ascii) : list ascii * list ascii :=
  match s with
  | c :: rest =>
      if Py.is_digit c then let '(ds, r) := span_digits rest in (c :: ds, r)
      else ([], s)
  | [] => ([], [])
  end.

(** An integer: an optional minus sign, then either a lone zero or digits
    that do not start with zero; not followed by a fraction or an
    exponent. *)
Definition number (s : list ascii) : option (pyval * list ascii) :=
  let '(sign, s1) :=
    match s with "-"%char :: r => (["-"%char], r) | _ => ([], s) end in
  let '(ds, rest) := span_digits s1 in
  let well_formed :=
    match ds with
    | [] => false
    | "0"%char :: _ :: _ => false
    | _ => true
    end in
  let integral :=
    match rest with
    | "."%char :: _ | "e"%char :: _ | "E"%char :: _ => false
    | _ => true
    end in
  if well_formed && integral then
    match Py.int (string_of_list_ascii (sign ++ ds)) with
    | Ok z => Some (PyInt z, rest)
    | Raise _ => None
    end
  else None.

Fixpoint literal (word s : list ascii) : option (list ascii) :=
  match word, s with
  | [], _ => Some s
  | w :: word', c :: rest => if Ascii.eqb w c then literal word' rest else None
  | _ :: _, [] => None
  end.

(** A later pair with the same key replaces the value and keeps the place. *)
Fixpoint dict_set (d : list (string * pyval)) (k : string) (v : pyval)
  : list (string * pyval) :=
  match d with
  | [] => [(k, v)]
  | (k', v') :: rest =>
      if String.eqb k' k then (k, v) :: rest else (k', v') :: dict_set rest k v
  end.

Fixpoint value (fuel : nat) (s : list ascii) : option (pyval * list ascii) :=
  match fuel with
  | O => None
  | S fuel' =>
      match skip_ws s with
      | "{"%char :: r =>
          match skip_ws r with
          | "}"%char :: r' => Some (PyDict [], r')
          | r' => members fuel' r' []
          end
      | "["%char :: r =>
          match skip_ws r with
          | "]"%char :: r' => Some (PyList [], r')
          | r' => elements fuel' r' []
          end
      | "n"%char :: r =>
          option_map (pair PyNone) (literal (list_ascii_of_string "ull") r)
      | "t"%char :: r =>
          option_map (pair (PyBool true)) (literal (list_ascii_of_string "rue") r)
      | "f"%char :: r =>
          option_map (pair (PyBool false)) (literal (list_ascii_of_string "alse") r)
      | c :: r =>
          if Ascii.eqb c quote then
            match string_tail r with
            | Some (t, r') => Some (PyStr t, r')
            | None => None
            end
          else number (c :: r)
      | [] => None
      end
  end
with elements (fuel : nat) (s : list ascii) (acc : list pyval)
  : option (pyval * list ascii) :=
  match fuel with
  | O => None
  | S fuel' =>
      match value fuel' s with
      | Some (v, r) =>
          match skip_ws r with
          | ","%char :: r' => elements fuel' r' (acc ++ [v])
          | "]"%char :: r' => Some (PyList (acc ++ [v]), r')
          | _ => None
          end
      | None => None
      end
  end
with members (fuel : nat) (s : list ascii) (acc : list (string * pyval))
  : option (pyval * list ascii) :=
  match fuel with
  | O => None
  | S fuel' =>
      match skip_ws s with
      | c :: r =>
          if Ascii.eqb c quote then
            match string_tail r with
            | Some (k, r1) =>
                match skip_ws r1 with
                | ":"%char :: r2 =>
                    match value fuel' r2 with
                    | Some (v, r3) =>
                        match skip_ws r3 with
                        | ","%char :: r4 => members fuel' r4 (dict_set acc k v)
                        | "}"%char :: r4 => Some (PyDict (dict_set acc k v), r4)
                        | _ => None
                        end
                    | None => None
                    end
                | _ => None
                end
            | None => None
            end
          else None
      | [] => None
      end
  end.

Definition ref_loads (raw : string) : result pyval :=
  match value (2 * String.length raw + 2) (list_ascii_of_string raw) with
  | Some (v, rest) =>
      match skip_ws rest with
      | [] => Ok v
      | _ => Raise JSONDecodeError
      end
  | None => Raise JSONDecodeError
  end.

Definition quoted (s : string) : string :=
  String quote (s ++ String quote EmptyString).

Fixpoint ref_dumps (v : pyval) : string :=
  match v with
  | PyNone => "null"
  | PyBool true => "true"
  | PyBool false => "false"
  | PyInt z => Py.str z
  | PyFloat repr => repr
  | PyStr s => quoted s
  | PyList l =>
      "[" ++ String.concat ", " (map ref_dumps l) ++ "]"
  | PyDict d =>
      "{" ++ String.concat ", "
               (map (fun kv => quoted (fst kv) ++ ": " ++ ref_dumps (snd kv)) d)
          ++ "}"
  end.

Definition json : json_module := {| loads := ref_loads; dumps := ref_dumps |}.

(** The text [{"id":"abc"}]. *)
Definition body_abc : string :=
  "{" ++ quoted "id" ++ ":" ++ quoted "abc" ++ "}".

End JsonRef.

(** ** Vocabulary of the properties *)

(** A vector-insert request: a POST whose path contains [vector]. *)
Definition is_insert (r : request) : bool :=
  match method r with
  | POST => Py.str_in "vector" (path r)
  | GET => false
  end.

(** A health request: a GET whose path contains [health]. *)
Definition is_health (r : request) : bool :=
  match method r with
  | GET => Py.str_in "health" (path r)
  | POST => false
  end.

(** [word] occurs somewhere in [text]. *)
Definition occurs_in (word text : string) : Prop :=
  exists pre post, text = pre ++ word ++ post.

(** A request on neither route: a GET whose path does not contain [health],
    or a POST whose path does not contain [vector]. *)
Definition unmatched (r : request) : Prop :=
  (method r = GET /\ ~ occurs_in "health" (path r)) \/
  (method r = POST /\ ~ occurs_in "vector" (path r)).

(** What a call put on the connection: its events without the prints. *)
Definition sent (out : list event) : list event :=
  filter (fun e => match e with Print _ => false | _ => true end) out.

(** A 200 response with [Content-Type: application/json] whose body is the
    encoding of [v]. *)
Definition ok_json (json : json_module) (v : pyval) : list event :=
  [SendResponse 200; SendHeader "Content-Type" "application/json";
   EndHeaders; WfileWrite (dumps json v)].

(** A 404 response without a body. *)
Definition not_found : list event := [SendResponse 404; EndHeaders].

Definition health_body (requests uptime : Z) : pyval :=
  PyDict [("status", PyStr "healthy");
          ("requests", PyInt requests);
          ("uptime", PyInt uptime)].

Definition inserted_body (id : pyval) : pyval :=
  PyDict [("id", id); ("status", PyStr "inserted")].

(** The id made up for an insert that brings the counter to [c]. *)
Definition vec_id (c : Z) : pyval := PyStr ("vec_" ++ Py.str c).

(** The attributes after one more insert. *)
Definition bump (s : ReliableMock) : ReliableMock :=
  {| count := count s + 1; start_time := start_time s |}.

(** [Content-Length] is absent, or reads as zero. *)
Definition length_zero_or_absent (self : request) : Prop :=
  Headers.get (headers self) "Content-Length" = None \/
  exists v, Headers.get (headers self) "Content-Length" = Some v /\
            Py.int v = Ok 0.

(** [Content-Length] reads as the nonzero [n], and the [n] bytes read from
    the request are [raw]. *)
Definition body_read (self : request) (n : Z) (raw : string) : Prop :=
  (exists v, Headers.get (headers self) "Content-Length" = Some v /\
             Py.int v = Ok n) /\
  n <> 0 /\
  BufferedReader.read (can_allocate self) (rfile self) n = Ok raw.

(** The progress line for counter value [c] and rate [rate]. *)
Definition progress_line (c : Z) (rate : Py.float) : string :=
  "Processed " ++ Py.str c ++ " vectors (" ++ Py.format_float_1f rate
    ++ "/sec)".

(** The rate in the words of the specification: the count divided by the
    elapsed seconds, or 0 when no time has elapsed.  The division is the
    one of Python, of an [int] by a [float]. *)
Definition spec_rate (c : Z) (elapsed : Q) : Py.float :=
  if Qeq_bool elapsed 0 then Py.Finite 0 else Py.truediv c elapsed.

(** The two pure parts of [do_POST], named so that its runs can be written
    down: the id it answers with once the counter is [c], and the events of
    its progress indicator. *)
Definition vector_id (json : json_module) (self : request) (c : Z)
  : result pyval :=
  match match Headers.get (headers self) "Content-Length" with
        | Some v => Py.int v
        | None => Ok 0
        end with
  | Raise e => Raise e
  | Ok length =>
      if negb (length =? 0) then
        match BufferedReader.read (can_allocate self) (rfile self) length with
        | Raise e => Raise e
        | Ok raw =>
            match loads json raw with
            | Raise e => Raise e
            | Ok data => Py.get data "id" (vec_id c)
            end
        end
      else Ok (vec_id c)
  end.

Definition progress (now : Q) (s : ReliableMock) : list event :=
  if count s mod 25 =? 0 then
    let elapsed := (now - start_time s)%Q in
    let rate :=
      if Py.float_gt elapsed 0 then Py.truediv (count s) elapsed
      else Py.Finite 0 in
    [Print (progress_line (count s) rate)]
  else [].

(** The number of vector-insert requests among the incoming ones. *)
Definition inserts (incoming : list (Q * request)) : Z :=
  Z.of_nat (List.length (filter (fun x => is_insert (snd x)) incoming)).

(** What the specification has an insert print when it brings the counter
    to [c]: the progress line at the multiples of 25, nothing otherwise. *)
Definition expected_lines (c : Z) (elapsed : Q) : list string :=
  if c mod 25 =? 0 then [progress_line c (spec_rate c elapsed)] else [].

(** All the lines printed during a run of the server. *)
Definition lines_of (outs : list (list event * result unit)) : list string :=
  flat_map (fun o => printed (fst o)) outs.

(** A run of vector inserts that all succeed, none earlier than the start
    time on the clock. *)
Definition good_run (json : json_module) (incoming : list (Q * request))
           (s : ReliableMock) : Prop :=
  Forall (fun x => is_insert (snd x) = true) incoming /\
  Forall (fun o => snd o = Ok tt) (snd (serve_forever json incoming s)) /\
  Forall (fun x => (start_time s <= fst x)%Q) incoming.

(** Sample requests.  They are handled where buffers of up to a gibibyte
    can be had. *)
Module Sample.

Definition one_gib (n : Z) : bool := n <=? 2 ^ 30.

Definition get_health : request :=
  {| method := GET; path := "/api/v1/health"; headers := []; rfile := "";
     can_allocate := one_gib |}.

Definition get_unknown : request :=
  {| method := GET; path := "/unknown"; headers := []; rfile := "";
     can_allocate := one_gib |}.

Definition post_other : request :=
  {| method := POST; path := "/api/v1/items"; headers := []; rfile := "";
     can_allocate := one_gib |}.

Definition post_abc : request :=
  {| method := POST; path := "/api/v1/vectors";
     headers := [("Host", "localhost:8080"); ("Content-Length", "12")];
     rfile := JsonRef.body_abc;
     can_allocate := one_gib |}.

Definition post_empty : request :=
  {| method := POST; path := "/api/v1/vectors";
     headers := [("Content-Length", "0")]; rfile := "";
     can_allocate := one_gib |}.

Definition post_no_length : request :=
  {| method := POST; path := "/api/v1/vectors"; headers := []; rfile := "";
     can_allocate := one_gib |}.

Definition post_no_id : request :=
  {| method := POST; path := "/api/v1/vectors";
     headers := [("content-length", "2")]; rfile := "{}";
     can_allocate := one_gib |}.

Definition post_malformed : request :=
  {| method := POST; path := "/api/v1/vectors";
     headers := [("Content-Length", "5")]; rfile := "{oops";
     can_allocate := one_gib |}.

Definition post_array : request :=
  {| method := POST; path := "/api/v1/vectors";
     headers := [("Content-Length", "3")]; rfile := "[1]";
     can_allocate := one_gib |}.

(** Three inserts without a body, at clock readings 10, 12 and 14. *)
Definition three_inserts : list (Q * request) :=
  [(10%Q, post_empty); (12%Q, post_no_length); (14%Q, post_empty)].

(** Two inserts with a health check in between. *)
Definition mixed_run : list (Q * request) :=
  [(1%Q, post_abc); (2%Q, get_health); (3%Q, post_no_id)].

(** The attributes after 23 inserts, the class having been created at
    clock reading 0. *)
Definition after_23 : ReliableMock := {| count := 23; start_time := 0 |}.

End Sample.

(** ** Variations of a request *)

(** The same request with other bytes on its connection. *)
Definition with_rfile (self : request) (data : string) : request :=
  {| method := method self; path := path self; headers := headers self;
     rfile := data; can_allocate := can_allocate self |}.

(** The same request with other header lines. *)
Definition with_headers (self : request) (hs : list (string * string))
  : request :=
  {| method := method self; path := path self; headers := hs;
     rfile := rfile self; can_allocate := can_allocate self |}.

(** Header lines that differ at most in the case of the letters of their
    names. *)
Definition same_headers (hs hs' : list (string * string)) : Prop :=
  Forall2 (fun h h' =>
             Headers.str_lower (fst h) = Headers.str_lower (fst h') /\
             snd h = snd h') hs hs'.

(** ** The script body *)

(** [s * n] on [str]. *)
Fixpoint str_mul (s : string) (n : nat) : string :=
  match n with
  | O => EmptyString
  | S n' => s ++ str_mul s n'
  end.

Definition newline : string := String "010"%char EmptyString.

(** The lines printed before the server is created, one per [print]. *)
Definition banner : list string :=
  [str_mul "=" 50;
   "RELIABLE Mock Vector DB";
   str_mul "=" 50;
   "Port: 8080";
   "Endpoints:";
   "  GET  /api/v1/health";
   "  POST /api/v1/vectors";
   str_mul "=" 50;
   "Ready for testing!" ++ newline].

(** The line printed when [KeyboardInterrupt] is caught. *)
Definition shutdown_line (c : Z) : string :=
  newline ++ newline ++ "Shutdown: Processed " ++ Py.str c ++ " total requests".

(** What happens to the script after the banner: [HTTPServer] cannot be
    created (it raises, for instance when the port is taken), or the server
    runs until a [KeyboardInterrupt].  The interrupt is taken to arrive
    while the server waits for its next request, the calls for [incoming]
    having ended; an interrupt in the middle of a call is not modelled. *)
Inductive script_input : Type :=
| CannotListen
| InterruptedAfter (incoming : list (Q * request)).

Inductive script_end : Type :=
| ExitedNormally
| UncaughtException.

(** The [__main__] block.  [created] is the clock reading at which the
    class body ran.  The result is what was printed on standard output, one
    entry per [print], and how the script ended; only [KeyboardInterrupt] is
    caught. *)
Definition main (json : json_module) (created : Q) (input : script_input)
  : list string * script_end :=
  match input with
  | CannotListen => (banner, UncaughtException)
  | InterruptedAfter incoming =>
      let '(s, outs) := serve_forever json incoming (class_init created) in
      ((banner ++ lines_of outs ++ [shutdown_line (count s)])%list,
       ExitedNormally)
  end.

(** More sample requests. *)
Module MoreSamples.

Definition one_gib : Z -> bool := Sample.one_gib.

Definition post_bad_length : request :=
  {| method := POST; path := "/api/v1/vectors";
     headers := [("Content-Length", "twelve")]; rfile := JsonRef.body_abc;
     can_allocate := one_gib |}.


Definition post_minus_one : request :=
  {| method := POST; path := "/api/v1/vectors";
     headers := [("Content-Length", "-1")]; rfile := JsonRef.body_abc;
     can_allocate := one_gib |}.

(** A run with a rejected insert, a good one and a request that is not an
    insert. *)
Definition run_with_failure : list (Q * request) :=
  [(1%Q, Sample.post_malformed); (2%Q, Sample.post_abc);
   (3%Q, Sample.get_unknown)].

(** The attributes after 24 inserts, the class having been created at clock
    reading 10. *)
Definition after_24 : ReliableMock := {| count := 24; start_time := 10 |}.

End MoreSamples.

(** Proves [body_read] on a concrete request whose [Content-Length] value
    is [v]. *)
Ltac read_body v :=
  split; [exists v; split; reflexivity | split; [discriminate | reflexivity]].

(** * Properties *)

(** ** The builtins on sample inputs *)

Example str_in_examples :
  (Py.str_in "health" "/api/v1/health", Py.str_in "health" "/healthcheck",
   Py.str_in "health" "/heal/th", Py.str_in "vector" "/api/v1/vectors",
   Py.str_in "vector" "/VECTOR")
  = (true, true, false, true, false).
Proof. reflexivity. Qed.

Example str_examples : (Py.str 0, Py.str 25, Py.str (-3)) = ("0", "25", "-3").
Proof. reflexivity. Qed.

Example int_examples :
  (Py.int "12", Py.int " 0 ", Py.int "+5", Py.int "-5", Py.int "1_000",
   Py.int "_1", Py.int "1_", Py.int "1__0", Py.int "", Py.int "+",
   Py.int "1.0", Py.int "+ 5", Py.int "00")
  = (Ok 12, Ok 0, Ok 5, Ok (-5), Ok 1000,
     Raise ValueError, Raise ValueError, Raise ValueError, Raise ValueError,
     Raise ValueError, Raise ValueError, Raise ValueError, Ok 0).
Proof. reflexivity. Qed.

Example int_of_float_examples :
  (Py.int_of_float (-1 # 2), Py.int_of_float (-3 # 2), Py.int_of_float (19 # 10))
  = (0, -1, 1).
Proof. reflexivity. Qed.

Example format_examples :
  (Py.format_1f 0, Py.format_1f (49 # 4), Py.format_1f (1 # 4),
   Py.format_1f (3 # 4), Py.format_1f (-1 # 25), Py.format_1f (25 # 2))
  = ("0.0", "12.2", "0.2", "0.8", "-0.0", "12.5").
Proof. reflexivity. Qed.

Example read_examples :
  (BufferedReader.read Sample.one_gib "hello" (-1),
   BufferedReader.read Sample.one_gib "hello" (-2),
   BufferedReader.read Sample.one_gib "hello" 3,
   BufferedReader.read Sample.one_gib "hello" 10,
   BufferedReader.read Sample.one_gib "hello" (2 ^ 40),
   BufferedReader.read (fun _ => true) "hello" (2 ^ 63 - 34),
   BufferedReader.read (fun _ => true) "hello" (2 ^ 63 - 33),
   BufferedReader.read (fun _ => true) "hello" (2 ^ 63))
  = (Ok "hello", Raise ValueError, Ok "hel", Ok "hello", Raise MemoryError,
     Ok "hello", Raise OverflowError, Raise OverflowError).
Proof. reflexivity. Qed.

(** The quotient is rounded as a [float] before it is formatted: 75 / 500
    is just below 0.15 and 25 / 500 just above 0.05. *)
Example truediv_examples :
  (Py.format_float_1f (Py.truediv 75 500),
   Py.format_float_1f (Py.truediv 25 500),
   Py.format_float_1f (Py.truediv 25 12),
   Py.format_float_1f (Py.truediv 25 2),
   Py.format_float_1f (Py.truediv 25 (1 # 4)),
   Py.format_float_1f (Py.truediv 50 (Py.pow2 (-1074))))
  = ("0.1", "0.1", "2.1", "12.5", "100.0", "inf").
Proof. vm_compute. reflexivity. Qed.

Example headers_get_examples :
  (Headers.get [("Host", "h"); ("content-LENGTH", "7"); ("Content-Length", "8")]
     "Content-Length",
   Headers.get [("Host", "h")] "Content-Length")
  = (Some "7", None).
Proof. reflexivity. Qed.

Example ref_loads_examples :
  (JsonRef.ref_loads JsonRef.body_abc, JsonRef.ref_loads "{}",
   JsonRef.ref_loads " [1, -2, true, null] ", JsonRef.ref_loads "{oops",
   JsonRef.ref_loads "01")
  = (Ok (PyDict [("id", PyStr "abc")]), Ok (PyDict []),
     Ok (PyList [PyInt 1; PyInt (-2); PyBool true; PyNone]),
     Raise JSONDecodeError, Raise JSONDecodeError).
Proof. reflexivity. Qed.

Example post_abc_example :
  do_POST JsonRef.json 1 Sample.post_abc (class_init 0)
  = ({| count := 1; start_time := 0 |},
     ok_json JsonRef.json (inserted_body (PyStr "abc")), Ok tt).
Proof. reflexivity. Qed.

Example post_25th_example :
  do_POST JsonRef.json 2 Sample.post_empty {| count := 24; start_time := 0 |}
  = ({| count := 25; start_time := 0 |},
     (ok_json JsonRef.json (inserted_body (PyStr "vec_25"))
        ++ [Print "Processed 25 vectors (12.5/sec)"])%list,
     Ok tt).
Proof. reflexivity. Qed.

(** An insert whose body is rejected is counted all the same: after it and
    one good insert the health endpoint reports 2. *)
Example failed_insert_is_counted :
  (map snd (snd (serve_forever JsonRef.json
                   [(1%Q, Sample.post_malformed); (2%Q, Sample.post_abc)]
                   (class_init 0))),
   events_of (do_GET JsonRef.json 3 Sample.get_health
                (fst (serve_forever JsonRef.json
                        [(1%Q, Sample.post_malformed); (2%Q, Sample.post_abc)]
                        (class_init 0)))))
  = ([Raise JSONDecodeError; Ok tt],
     ok_json JsonRef.json (health_body 2 3)).
Proof. reflexivity. Qed.

(** The rate is the [float] quotient: at 500 seconds the 75th insert shows
    0.1, the quotient being just below 0.15. *)
Example post_75th_example :
  printed (events_of (do_POST JsonRef.json 500 Sample.post_empty
                        {| count := 74; start_time := 0 |}))
  = ["Processed 75 vectors (0.1/sec)"].
Proof. vm_compute. reflexivity. Qed.

(** A clock reading before the start time: [int] truncates the negative
    difference toward zero, and the progress line shows the rate 0. *)
Example clock_before_start_examples :
  (events_of (do_GET JsonRef.json (19 # 2) Sample.get_health
                {| count := 24; start_time := 10 |}),
   printed (events_of (do_POST JsonRef.json (19 # 2) Sample.post_empty
                         {| count := 24; start_time := 10 |})))
  = (ok_json JsonRef.json (health_body 24 0),
     ["Processed 25 vectors (0.0/sec)"]).
Proof. reflexivity. Qed.

(** ** Substring containment *)

Lemma prefix_app (needle hay : string) :
  String.prefix needle hay = true <-> exists post, hay = needle ++ post.
Proof.
  revert hay; induction needle as [|c needle IH]; intros hay.
  - split; [intros _; exists hay; reflexivity | intros _; destruct hay; reflexivity].
  - destruct hay as [|d hay]; simpl.
    + split; [discriminate | intros [post H]; discriminate].
    + destruct (ascii_dec c d) as [->|ne].
      * rewrite IH. split; intros [post H]; exists post.
        -- now rewrite H.
        -- now injection H.
      * split; [discriminate | intros [post H]; injection H; congruence].
Qed.

Lemma str_in_eq (needle hay : string) :
  Py.str_in needle hay =
  if String.prefix needle hay then true
  else match hay with
       | EmptyString => false
       | String _ rest => Py.str_in needle rest
       end.
Proof. destruct hay; reflexivity. Qed.

(** [str_in] holds exactly when the needle occurs somewhere in the text. *)
Lemma str_in_spec (needle hay : string) :
  Py.str_in needle hay = true <->
  exists pre post, hay = pre ++ needle ++ post.
Proof.
  induction hay as [|d hay IH]; rewrite str_in_eq.
  - destruct (String.prefix needle "") eqn:P.
    + split; [intros _|reflexivity].
      apply prefix_app in P as [post P]. exists "", post. exact P.
    + split; [discriminate|]. intros [pre [post H]].
      destruct pre; simpl in H.
      * assert (String.prefix needle "" = true) by (apply prefix_app; eauto).
        congruence.
      * discriminate.
  - destruct (String.prefix needle (String d hay)) eqn:P.
    + split; [intros _|reflexivity].
      apply prefix_app in P as [post P]. exists "", post. exact P.
    + rewrite IH. split.
      * intros [pre [post H]]. exists (String d pre), post. simpl. now rewrite H.
      * intros [pre [post H]]. destruct pre as [|e pre]; simpl in H.
        -- assert (String.prefix needle (String d hay) = true)
             by (apply prefix_app; eauto).
           congruence.
        -- injection H as _ H. eauto.
Qed.

(** ** Truncation of clock differences *)

Lemma int_of_float_nonneg (x : Q) :
  (0 <= x)%Q -> Py.int_of_float x = Qfloor x.
Proof.
  destruct x as [n d]. unfold Qle, Py.int_of_float, Qfloor; simpl.
  intros H. apply Z.quot_div_nonneg; lia.
Qed.

Lemma int_of_float_neg (x : Q) :
  (x <= 0)%Q -> Py.int_of_float x = Qceiling x.
Proof.
  destruct x as [n d]. unfold Qle, Py.int_of_float, Qceiling, Qfloor; simpl.
  intros H.
  replace n with (- - n) at 1 by lia.
  rewrite Z.quot_opp_l by lia.
  rewrite Z.quot_div_nonneg by lia. reflexivity.
Qed.

Lemma int_of_float_mono (x y : Q) :
  (x <= y)%Q -> Py.int_of_float x <= Py.int_of_float y.
Proof.
  intros H.
  destruct (Qlt_le_dec x 0) as [Hx|Hx]; destruct (Qlt_le_dec y 0) as [Hy|Hy].
  - rewrite !int_of_float_neg by now apply Qlt_le_weak.
    now apply Qceiling_resp_le.
  - rewrite (int_of_float_neg x) by now apply Qlt_le_weak.
    rewrite (int_of_float_nonneg y) by assumption.
    transitivity 0.
    + change 0 with (Qceiling 0). apply Qceiling_resp_le. now apply Qlt_le_weak.
    + change 0 with (Qfloor 0). now apply Qfloor_resp_le.
  - exfalso. apply (Qlt_irrefl 0).
    apply Qle_lt_trans with y; [|assumption].
    now apply Qle_trans with x.
  - rewrite !int_of_float_nonneg by (assumption || now apply Qle_trans with x).
    now apply Qfloor_resp_le.
Qed.

Lemma elapsed_nonneg (t0 now : Q) : (t0 <= now)%Q -> (0 <= now - t0)%Q.
Proof.
  intros H. unfold Qminus. now apply (proj1 (Qle_minus_iff t0 now)).
Qed.

Lemma elapsed_mono (t0 t1 t2 : Q) : (t1 <= t2)%Q -> (t1 - t0 <= t2 - t0)%Q.
Proof.
  intros H. unfold Qminus. apply Qplus_le_compat; [assumption | apply Qle_refl].
Qed.

(** ** Runs of the handlers *)

Section Runs.

Variable json : json_module.

Lemma do_GET_health (now : Q) (self : request) (s : ReliableMock) :
  Py.str_in "health" (path self) = true ->
  do_GET json now self s =
  (s, ok_json json (health_body (count s)
                      (Py.int_of_float (now - start_time s))), Ok tt).
Proof. intros H. unfold do_GET. rewrite H. reflexivity. Qed.

Lemma do_GET_other (now : Q) (self : request) (s : ReliableMock) :
  Py.str_in "health" (path self) = false ->
  do_GET json now self s = (s, not_found, Ok tt).
Proof. intros H. unfold do_GET. rewrite H. reflexivity. Qed.

Lemma do_POST_other (now : Q) (self : request) (s : ReliableMock) :
  Py.str_in "vector" (path self) = false ->
  do_POST json now self s = (s, not_found, Ok tt).
Proof. intros H. unfold do_POST. rewrite H. reflexivity. Qed.

(** A vector insert bumps the counter first; then either an exception ends
    the call before anything is sent, or the response goes out and the
    progress indicator runs. *)
Lemma do_POST_vector (now : Q) (self : request) (s : ReliableMock) :
  Py.str_in "vector" (path self) = true ->
  do_POST json now self s =
  match vector_id json self (count s + 1) with
  | Ok id =>
      (bump s, (ok_json json (inserted_body id) ++ progress now (bump s))%list,
       Ok tt)
  | Raise e => (bump s, [], Raise e)
  end.
Proof.
  intros H. unfold do_POST, vector_id, progress. rewrite H.
  cbv [bind lift ret get_count set_count get_start_time emit send_response
         send_header end_headers wfile_write print].
  cbn [count start_time].
  fold (bump s).
  destruct (Headers.get (headers self) "Content-Length") as [v|];
    [destruct (Py.int v) as [n|e]; [|reflexivity] | ].
  - destruct (negb (n =? 0)).
    + destruct (BufferedReader.read _ (rfile self) n) as [raw|e];
        [|reflexivity].
      destruct (loads json raw) as [data|e]; [|reflexivity].
      destruct (Py.get data "id" _) as [id|e]; [|reflexivity].
      cbn [count bump]. destruct (_ =? 0); reflexivity.
    + cbn [negb count bump]. destruct (_ =? 0); reflexivity.
  - cbn [negb Z.eqb count bump]. destruct (_ =? 0); reflexivity.
Qed.

Lemma handle_GET (now : Q) (self : request) (s : ReliableMock) :
  method self = GET -> handle json now self s = do_GET json now self s.
Proof. intros H. unfold handle. now rewrite H. Qed.

Lemma handle_POST (now : Q) (self : request) (s : ReliableMock) :
  method self = POST -> handle json now self s = do_POST json now self s.
Proof. intros H. unfold handle. now rewrite H. Qed.

Lemma is_health_inv (r : request) :
  is_health r = true -> method r = GET /\ Py.str_in "health" (path r) = true.
Proof. unfold is_health. destruct (method r); [auto | discriminate]. Qed.

Lemma is_insert_inv (r : request) :
  is_insert r = true -> method r = POST /\ Py.str_in "vector" (path r) = true.
Proof. unfold is_insert. destruct (method r); [discriminate | auto]. Qed.

(** The attributes after any call: bumped by an insert request, whether or
    not it succeeds, and untouched by every other request. *)
Lemma handle_state (now : Q) (r : request) (s : ReliableMock) :
  state_of (handle json now r s) = if is_insert r then bump s else s.
Proof.
  unfold handle, is_insert. destruct (method r).
  - destruct (Py.str_in "health" (path r)) eqn:H.
    + now rewrite do_GET_health.
    + now rewrite do_GET_other.
  - destruct (Py.str_in "vector" (path r)) eqn:H.
    + rewrite do_POST_vector by assumption.
      now destruct (vector_id json r (count s + 1)).
    + now rewrite do_POST_other.
Qed.

Lemma handle_count_le (now : Q) (r : request) (s : ReliableMock) :
  count s <= count (state_of (handle json now r s)).
Proof.
  rewrite handle_state. destruct (is_insert r); simpl; lia.
Qed.

Lemma handle_start_time (now : Q) (r : request) (s : ReliableMock) :
  start_time (state_of (handle json now r s)) = start_time s.
Proof. rewrite handle_state. now destruct (is_insert r). Qed.

(** A successful insert, written out. *)
Lemma insert_ok (now : Q) (r : request) (s : ReliableMock) :
  is_insert r = true ->
  outcome_of (handle json now r s) = Ok tt ->
  exists id,
    handle json now r s =
    (bump s, (ok_json json (inserted_body id) ++ progress now (bump s))%list,
     Ok tt).
Proof.
  intros Hi Hok. apply is_insert_inv in Hi as [Hm Hp].
  rewrite handle_POST in * by assumption.
  rewrite do_POST_vector in * by assumption.
  destruct (vector_id json r (count s + 1)) as [id|e].
  - now exists id.
  - discriminate.
Qed.

Lemma serve_forever_cons (now : Q) (r : request) (rest : list (Q * request))
      (s : ReliableMock) :
  serve_forever json ((now, r) :: rest) s =
  (fst (serve_forever json rest (state_of (handle json now r s))),
   (events_of (handle json now r s), outcome_of (handle json now r s))
     :: snd (serve_forever json rest (state_of (handle json now r s)))).
Proof.
  simpl. destruct (handle json now r s) as [[s1 out] res].
  unfold state_of, events_of, outcome_of; simpl.
  now destruct (serve_forever json rest s1).
Qed.

Lemma serve_forever_length (incoming : list (Q * request)) (s : ReliableMock) :
  List.length (snd (serve_forever json incoming s)) = List.length incoming.
Proof.
  revert s; induction incoming as [|[now r] rest IH]; intros s.
  - reflexivity.
  - rewrite serve_forever_cons. simpl. now rewrite IH.
Qed.

(** The attributes after a run: the counter has grown by the number of
    insert requests, the start time is the same. *)
Lemma serve_forever_state (incoming : list (Q * request)) (s : ReliableMock) :
  fst (serve_forever json incoming s) =
  {| count := count s + inserts incoming; start_time := start_time s |}.
Proof.
  revert s; induction incoming as [|[now r] rest IH]; intros s.
  - destruct s. unfold inserts. simpl. f_equal. lia.
  - rewrite serve_forever_cons. cbn [fst]. rewrite IH.
    rewrite handle_state. unfold inserts. cbn [filter snd].
    destruct (is_insert r); cbn [List.length bump count start_time];
      f_equal; lia.
Qed.

End Runs.

(** ** The responses of single calls *)

Section Ids.

Variable json : json_module.

Lemma vector_id_zero_or_absent (self : request) (c : Z) :
  length_zero_or_absent self -> vector_id json self c = Ok (vec_id c).
Proof.
  unfold vector_id. intros [H | [v [H Hv]]]; rewrite H; [|rewrite Hv];
    reflexivity.
Qed.

Lemma vector_id_body (self : request) (c n : Z) (raw : string) :
  body_read self n raw ->
  vector_id json self c =
  match loads json raw with
  | Raise e => Raise e
  | Ok data => Py.get data "id" (vec_id c)
  end.
Proof.
  unfold vector_id. intros [[v [H Hv]] [Hn Hr]]. rewrite H, Hv.
  apply Z.eqb_neq in Hn. rewrite Hn. cbn [negb]. now rewrite Hr.
Qed.

Lemma sent_app (a b : list event) : sent (a ++ b) = (sent a ++ sent b)%list.
Proof. apply filter_app. Qed.

Lemma sent_progress (now : Q) (s : ReliableMock) : sent (progress now s) = [].
Proof. unfold progress. now destruct (_ =? 0). Qed.

Lemma sent_insert_events (id : pyval) (now : Q) (s : ReliableMock) :
  sent (ok_json json (inserted_body id) ++ progress now s) =
  ok_json json (inserted_body id).
Proof. rewrite sent_app, sent_progress. reflexivity. Qed.

End Ids.

Section Calls.

Variable json : json_module.

(** C2: a POST whose path contains [vector], whose [Content-Length] is
    nonzero and whose body parses to a JSON object with an [id] field is
    answered with HTTP 200 and the body [{"id": <that id>, "status":
    "inserted"}], the id being the parsed value itself. *)
Theorem insert_echoes_given_id
        (now : Q) (self : request) (s : ReliableMock)
        (n : Z) (raw : string) (d : list (string * pyval)) (id : pyval) :
  Py.str_in "vector" (path self) = true ->
  body_read self n raw ->
  loads json raw = Ok (PyDict d) ->
  Py.dict_get d "id" = Some id ->
  sent (events_of (do_POST json now self s)) = ok_json json (inserted_body id)
  /\ outcome_of (do_POST json now self s) = Ok tt.
Proof.
  intros Hp Hb Hl Hid.
  rewrite do_POST_vector by assumption.
  rewrite (vector_id_body _ _ _ _ _ Hb), Hl. cbn [Py.get]. rewrite Hid.
  cbn [events_of outcome_of fst snd]. now rewrite sent_insert_events.
Qed.

(** C3: a vector insert with [Content-Length] zero or absent, arriving when
    the counter is [k], is answered with HTTP 200 and the body [{"id":
    "vec_<k+1>", "status": "inserted"}] whatever the decoder would do with
    the bytes of the request (the body is not parsed); the same id is
    answered when the body parses to a JSON object without an [id]
    field. *)
Theorem insert_synthesizes_id
        (now : Q) (self : request) (s : ReliableMock) :
  Py.str_in "vector" (path self) = true ->
  (length_zero_or_absent self ->
   forall decoder : string -> result pyval,
     let json' := {| loads := decoder; dumps := dumps json |} in
     sent (events_of (do_POST json' now self s))
     = ok_json json (inserted_body (vec_id (count s + 1)))
     /\ outcome_of (do_POST json' now self s) = Ok tt)
  /\
  (forall n raw d,
     body_read self n raw ->
     loads json raw = Ok (PyDict d) ->
     Py.dict_get d "id" = None ->
     sent (events_of (do_POST json now self s))
     = ok_json json (inserted_body (vec_id (count s + 1)))
     /\ outcome_of (do_POST json now self s) = Ok tt).
Proof.
  intros Hp. split.
  - intros Hz decoder json'.
    rewrite do_POST_vector by assumption.
    rewrite vector_id_zero_or_absent by assumption.
    cbn [events_of outcome_of fst snd]. rewrite sent_insert_events.
    split; reflexivity.
  - intros n raw d Hb Hl Hid.
    rewrite do_POST_vector by assumption.
    rewrite (vector_id_body _ _ _ _ _ Hb), Hl. cbn [Py.get]. rewrite Hid.
    cbn [events_of outcome_of fst snd]. now rewrite sent_insert_events.
Qed.

(** The second half of C3 is about JSON objects: a body that parses to
    anything else has no [get], and the call ends with [AttributeError]
    before a response is sent. *)
Remark insert_non_object_raises
       (now : Q) (self : request) (s : ReliableMock)
       (n : Z) (raw : string) (data : pyval) :
  Py.str_in "vector" (path self) = true ->
  body_read self n raw ->
  loads json raw = Ok data ->
  (forall d, data <> PyDict d) ->
  do_POST json now self s = (bump s, [], Raise AttributeError).
Proof.
  intros Hp Hb Hl Hd.
  rewrite do_POST_vector by assumption.
  rewrite (vector_id_body _ _ _ _ _ Hb), Hl.
  destruct data; try reflexivity. now elim (Hd d).
Qed.

(** C4: a GET whose path contains [health] is answered with HTTP 200,
    [Content-Type: application/json] and the body [{"status": "healthy",
    "requests": <counter>, "uptime": <floor of the seconds elapsed since
    the start time>}].  The code truncates the elapsed time toward zero;
    for a clock reading that is not before the start time this is the
    floor. *)
Theorem health_response
        (now : Q) (self : request) (s : ReliableMock) :
  Py.str_in "health" (path self) = true ->
  (start_time s <= now)%Q ->
  do_GET json now self s =
  (s, ok_json json (health_body (count s) (Qfloor (now - start_time s))),
   Ok tt).
Proof.
  intros Hp Ht. rewrite do_GET_health by assumption.
  rewrite int_of_float_nonneg by now apply elapsed_nonneg.
  reflexivity.
Qed.

Lemma str_in_occurs (word text : string) :
  Py.str_in word text = true <-> occurs_in word text.
Proof. apply str_in_spec. Qed.

Lemma str_in_not_occurs (word text : string) :
  Py.str_in word text = false <-> ~ occurs_in word text.
Proof.
  rewrite <- str_in_occurs. destruct (Py.str_in word text); split;
    congruence.
Qed.

(** C5: the handler answers HTTP 404 with no body, and changes nothing,
    exactly for the requests on neither route: a GET whose path does not
    contain [health], or a POST whose path does not contain [vector].  A
    route is taken when its word occurs anywhere in the path: every GET
    whose path contains [health] gets the health response and every POST
    whose path contains [vector] is handled as an insert, so
    [/api/v1/health] and [/healthcheck] are both health requests. *)
Theorem unmatched_routes_not_found
        (now : Q) (self : request) (s : ReliableMock) :
  (unmatched self <-> handle json now self s = (s, not_found, Ok tt))
  /\ statuses not_found = [404]
  /\ body_of not_found = ""
  /\ (method self = GET -> occurs_in "health" (path self) ->
      handle json now self s
      = (s, ok_json json (health_body (count s)
                            (Py.int_of_float (now - start_time s))), Ok tt))
  /\ (method self = POST -> occurs_in "vector" (path self) ->
      state_of (handle json now self s) = bump s
      /\ ~ In (SendResponse 404) (events_of (handle json now self s)))
  /\ (forall p, p = "/api/v1/health" \/ p = "/healthcheck" ->
      method self = GET -> path self = p ->
      statuses (events_of (handle json now self s)) = [200]).
Proof.
  split; [|split; [reflexivity|split; [reflexivity|split; [|split]]]].
  - split.
    + intros [[Hm Hp] | [Hm Hp]]; apply str_in_not_occurs in Hp.
      * rewrite handle_GET by assumption. now apply do_GET_other.
      * rewrite handle_POST by assumption. now apply do_POST_other.
    + intros H. unfold handle in H. destruct (method self) eqn:Hm.
      * left. split; [assumption|]. apply str_in_not_occurs.
        destruct (Py.str_in "health" (path self)) eqn:Hp; [|reflexivity].
        rewrite do_GET_health in H by assumption. discriminate.
      * right. split; [assumption|]. apply str_in_not_occurs.
        destruct (Py.str_in "vector" (path self)) eqn:Hp; [|reflexivity].
        rewrite do_POST_vector in H by assumption.
        destruct (vector_id json self (count s + 1)); discriminate.
  - intros Hm Hp. apply str_in_occurs in Hp.
    rewrite handle_GET by assumption. now apply do_GET_health.
  - intros Hm Hp. apply str_in_occurs in Hp.
    rewrite handle_POST by assumption. rewrite do_POST_vector by assumption.
    destruct (vector_id json self (count s + 1)).
    + split; [reflexivity|]. cbn [events_of fst snd]. intros H.
      apply in_app_or in H as [H|H].
      * cbn in H. intuition discriminate.
      * unfold progress in H. destruct (_ =? 0); cbn in H;
          intuition discriminate.
    + split; [reflexivity | intros []].
  - intros p Hp Hm Hpath. rewrite handle_GET by assumption.
    rewrite do_GET_health; [reflexivity|].
    rewrite Hpath. destruct Hp as [-> | ->]; reflexivity.
Qed.

(** C6: a vector insert with a nonzero [Content-Length] whose body the
    decoder rejects ends with the decoder's exception; nothing catches it,
    and no response, in particular no 200, is sent. *)
Theorem malformed_body_raises
        (now : Q) (self : request) (s : ReliableMock)
        (n : Z) (raw : string) (e : exn) :
  Py.str_in "vector" (path self) = true ->
  body_read self n raw ->
  loads json raw = Raise e ->
  outcome_of (do_POST json now self s) = Raise e
  /\ events_of (do_POST json now self s) = []
  /\ statuses (events_of (do_POST json now self s)) = [].
Proof.
  intros Hp Hb Hl.
  rewrite do_POST_vector by assumption.
  rewrite (vector_id_body _ _ _ _ _ Hb), Hl. repeat split.
Qed.

(** C8: a GET request leaves the class attributes as they were: the health
    handler reads the counter and the start time and writes neither.  The
    same holds for any run of GET requests. *)
Theorem health_is_read_only
        (now : Q) (self : request) (s : ReliableMock) :
  state_of (do_GET json now self s) = s
  /\ (is_health self = true ->
      count (state_of (handle json now self s)) = count s)
  /\ (forall incoming,
        Forall (fun x => method (snd x) = GET) incoming ->
        fst (serve_forever json incoming s) = s).
Proof.
  split; [|split].
  - destruct (Py.str_in "health" (path self)) eqn:H.
    + now rewrite do_GET_health.
    + now rewrite do_GET_other.
  - intros H. rewrite handle_state.
    unfold is_health in H. unfold is_insert.
    destruct (method self); [reflexivity | discriminate].
  - intros incoming. revert s.
    induction incoming as [|[t r] rest IH]; intros s0 Hall.
    + reflexivity.
    + inversion Hall as [|x l Hr Hrest]; subst. cbn [snd] in Hr.
      rewrite serve_forever_cons. cbn [fst].
      rewrite handle_state. unfold is_insert. rewrite Hr.
      now apply IH.
Qed.

(** C10: the insert handler increments the counter before it looks at the
    body.  Every POST on a vector path leaves the counter one higher,
    however the call ends; when the body of nonzero length is rejected by
    the decoder, the call ends with the exception, has sent nothing, and the
    counter is one higher all the same. *)
Theorem malformed_body_still_counts
        (now : Q) (self : request) (s : ReliableMock) :
  Py.str_in "vector" (path self) = true ->
  count (state_of (do_POST json now self s)) = count s + 1
  /\ (forall n raw e,
        body_read self n raw ->
        loads json raw = Raise e ->
        do_POST json now self s = (bump s, [], Raise e)).
Proof.
  intros Hp. rewrite do_POST_vector by assumption. split.
  - now destruct (vector_id json self (count s + 1)).
  - intros n raw e Hb Hl. now rewrite (vector_id_body _ _ _ _ _ Hb), Hl.
Qed.

End Calls.

(** ** Runs of the server *)

Section Sequences.

Variable json : json_module.

Lemma rate_agrees (c : Z) (elapsed : Q) :
  (0 <= elapsed)%Q ->
  (if Py.float_gt elapsed 0 then Py.truediv c elapsed else Py.Finite 0)
  = spec_rate c elapsed.
Proof.
  intros H. unfold Py.float_gt, spec_rate.
  destruct (Qle_bool elapsed 0) eqn:Hle; destruct (Qeq_bool elapsed 0) eqn:Heq;
    cbn [negb]; try reflexivity; exfalso.
  - apply Qle_bool_iff in Hle.
    assert (elapsed == 0)%Q as E by now apply Qle_antisym.
    apply Qeq_bool_iff in E. congruence.
  - apply Qeq_bool_iff in Heq.
    assert (Qle_bool elapsed 0 = true) as E
        by (apply Qle_bool_iff; rewrite Heq; apply Qle_refl).
    congruence.
Qed.

Lemma printed_app (a b : list event) :
  printed (a ++ b) = (printed a ++ printed b)%list.
Proof. apply flat_map_app. Qed.

Lemma printed_progress (now : Q) (s : ReliableMock) :
  (start_time s <= now)%Q ->
  printed (progress now s) = expected_lines (count s) (now - start_time s).
Proof.
  intros H. unfold progress, expected_lines.
  destruct (count s mod 25 =? 0); [|reflexivity].
  cbn [printed flat_map app]. now rewrite rate_agrees by now apply elapsed_nonneg.
Qed.

(** What a successful insert prints. *)
Lemma printed_insert (now : Q) (r : request) (s : ReliableMock) :
  is_insert r = true ->
  outcome_of (handle json now r s) = Ok tt ->
  (start_time s <= now)%Q ->
  printed (events_of (handle json now r s))
  = expected_lines (count s + 1) (now - start_time s).
Proof.
  intros Hi Hok Ht. destruct (insert_ok json now r s Hi Hok) as [id E].
  rewrite E. cbn [events_of fst snd]. rewrite printed_app.
  cbn [ok_json printed flat_map app].
  now rewrite printed_progress.
Qed.

Lemma expected_lines_length (c : Z) (elapsed : Q) :
  Z.of_nat (List.length (expected_lines c elapsed))
  = c / 25 - (c - 1) / 25.
Proof.
  unfold expected_lines. destruct (Z.eqb_spec (c mod 25) 0) as [E|E];
    cbn [List.length]; Z.to_euclidean_division_equations; lia.
Qed.

Lemma good_run_cons (t : Q) (q : request) (rest : list (Q * request))
      (s : ReliableMock) :
  good_run json ((t, q) :: rest) s ->
  is_insert q = true /\
  outcome_of (handle json t q s) = Ok tt /\
  (start_time s <= t)%Q /\
  state_of (handle json t q s) = bump s /\
  good_run json rest (bump s).
Proof.
  intros (Hins & Hok & Hclock).
  rewrite serve_forever_cons in Hok. cbn [snd] in Hok.
  inversion Hins as [|x l Hq Hrest]; subst. cbn [snd] in Hq.
  inversion Hok as [|x l Hx Hl]; subst. cbn [snd] in Hx.
  inversion Hclock as [|x l Hc Hcl]; subst. cbn [fst] in Hc.
  assert (state_of (handle json t q s) = bump s) as Es
      by (rewrite handle_state; now rewrite Hq).
  rewrite Es in Hl.
  repeat split; assumption.
Qed.

Lemma run_prints_at (incoming : list (Q * request)) (s : ReliableMock)
      (i : nat) (now : Q) (r : request)
      (out : list event) (res : result unit) :
  good_run json incoming s ->
  nth_error incoming i = Some (now, r) ->
  nth_error (snd (serve_forever json incoming s)) i = Some (out, res) ->
  printed out = expected_lines (count s + Z.of_nat i + 1) (now - start_time s).
Proof.
  revert s i.
  induction incoming as [|[t q] rest IH]; intros s i Hgood.
  - destruct i; discriminate.
  - apply good_run_cons in Hgood as (Hq & Hx & Hc & Es & Hrest).
    rewrite serve_forever_cons, Es. cbn [snd].
    destruct i as [|i]; cbn [nth_error].
    + intros [= -> ->] [= <- <-].
      rewrite printed_insert by assumption.
      f_equal. cbn. lia.
    + intros Hi Ho.
      rewrite (IH (bump s) i Hrest Hi Ho).
      cbn [bump count start_time]. f_equal. lia.
Qed.

Lemma run_prints_total (incoming : list (Q * request)) (s : ReliableMock) :
  good_run json incoming s ->
  Z.of_nat (List.length (lines_of (snd (serve_forever json incoming s))))
  = (count s + Z.of_nat (List.length incoming)) / 25 - count s / 25.
Proof.
  revert s.
  induction incoming as [|[t q] rest IH]; intros s Hgood.
  - cbn. rewrite Z.add_0_r. lia.
  - apply good_run_cons in Hgood as (Hq & Hx & Hc & Es & Hrest).
    rewrite serve_forever_cons, Es. cbn [snd].
    unfold lines_of in *. cbn [flat_map fst].
    rewrite length_app, Nat2Z.inj_add, (IH (bump s) Hrest).
    rewrite printed_insert by assumption.
    rewrite expected_lines_length. cbn [bump count List.length].
    replace (count s + 1 - 1) with (count s) by lia.
    replace (count s + Z.of_nat (S (List.length rest)))
      with (count s + 1 + Z.of_nat (List.length rest)) by lia.
    lia.
Qed.

(** C1: after a run from the initial state in which every call returned
    normally, so that the inserts among them all succeeded, the health
    endpoint reports as [requests] the number N of inserts made.  A
    successful insert leaves the counter exactly one higher, and no call
    ever lowers it. *)
Theorem requests_counts_successful_inserts
        (t0 : Q) (incoming : list (Q * request))
        (s' : ReliableMock) (outs : list (list event * result unit))
        (now : Q) (probe : request) :
  serve_forever json incoming (class_init t0) = (s', outs) ->
  Forall (fun o => snd o = Ok tt) outs ->
  Py.str_in "health" (path probe) = true ->
  do_GET json now probe s' =
  (s', ok_json json (health_body (inserts incoming)
                       (Py.int_of_float (now - t0))), Ok tt)
  /\ (forall t r s,
        is_insert r = true ->
        outcome_of (handle json t r s) = Ok tt ->
        count (state_of (handle json t r s)) = count s + 1)
  /\ (forall t r s, count s <= count (state_of (handle json t r s))).
Proof.
  intros Hrun _ Hp. split; [|split].
  - rewrite do_GET_health by assumption.
    assert (s' = fst (serve_forever json incoming (class_init t0))) as ->
        by now rewrite Hrun.
    rewrite serve_forever_state. reflexivity.
  - intros t r s Hi _. rewrite handle_state, Hi. reflexivity.
  - intros t r s. apply handle_count_le.
Qed.

(** C7: in a run of vector inserts that all succeed, the insert that brings
    the counter to [c] prints the progress line when [c] is a multiple of
    25 and prints nothing otherwise; the line shows the rate [c / elapsed],
    the quotient as Python computes it, to one decimal, or 0 when no time
    has elapsed.  So the number of lines printed while the
    counter goes from [k] to [k + n] is the number of multiples of 25 in
    between: one line per 25 inserts. *)
Theorem progress_line_every_25
        (incoming : list (Q * request)) (s s' : ReliableMock)
        (outs : list (list event * result unit)) :
  serve_forever json incoming s = (s', outs) ->
  Forall (fun x => is_insert (snd x) = true) incoming ->
  Forall (fun o => snd o = Ok tt) outs ->
  Forall (fun x => (start_time s <= fst x)%Q) incoming ->
  (forall i now r out res,
      nth_error incoming i = Some (now, r) ->
      nth_error outs i = Some (out, res) ->
      printed out
      = expected_lines (count s + Z.of_nat i + 1) (now - start_time s))
  /\ Z.of_nat (List.length (lines_of outs))
     = (count s + Z.of_nat (List.length incoming)) / 25 - count s / 25.
Proof.
  intros Hrun Hins Hok Hclock.
  assert (outs = snd (serve_forever json incoming s)) as ->
      by now rewrite Hrun.
  assert (good_run json incoming s) as Hgood by (repeat split; assumption).
  split.
  - intros i now r out res. now apply run_prints_at.
  - now apply run_prints_total.
Qed.

(** C9: whatever requests are served in between, a later health call
    reports a [requests] value at least as large as an earlier one, and,
    when its clock reading is not earlier, an [uptime] at least as large.
    No call lowers the counter. *)
Theorem health_never_decreases
        (incoming : list (Q * request)) (s s' : ReliableMock)
        (outs : list (list event * result unit))
        (t1 t2 : Q) (probe1 probe2 : request) :
  serve_forever json incoming s = (s', outs) ->
  is_health probe1 = true ->
  is_health probe2 = true ->
  (t1 <= t2)%Q ->
  (exists r1 u1 r2 u2,
      handle json t1 probe1 s = (s, ok_json json (health_body r1 u1), Ok tt) /\
      handle json t2 probe2 s' = (s', ok_json json (health_body r2 u2), Ok tt) /\
      r1 <= r2 /\ u1 <= u2)
  /\ (forall t r s0, count s0 <= count (state_of (handle json t r s0))).
Proof.
  intros Hrun H1 H2 Ht.
  apply is_health_inv in H1 as [Hm1 Hp1]. apply is_health_inv in H2 as [Hm2 Hp2].
  assert (s' = fst (serve_forever json incoming s)) as Es by now rewrite Hrun.
  rewrite serve_forever_state in Es.
  split; [|intros; apply handle_count_le].
  exists (count s), (Py.int_of_float (t1 - start_time s)),
         (count s'), (Py.int_of_float (t2 - start_time s')).
  repeat split.
  - rewrite handle_GET by assumption. now apply do_GET_health.
  - rewrite handle_GET by assumption. now apply do_GET_health.
  - subst s'. cbn [count]. unfold inserts. lia.
  - subst s'. cbn [start_time]. apply int_of_float_mono. now apply elapsed_mono.
Qed.

End Sequences.

(** ** The properties on sample requests *)

Lemma requests_counts_successful_inserts_witness :
  serve_forever JsonRef.json Sample.mixed_run (class_init 0)
  = ({| count := 2; start_time := 0 |},
     snd (serve_forever JsonRef.json Sample.mixed_run (class_init 0)))
  /\ Forall (fun o => snd o = Ok tt)
            (snd (serve_forever JsonRef.json Sample.mixed_run (class_init 0)))
  /\ Py.str_in "health" (path Sample.get_health) = true
  /\ do_GET JsonRef.json (7 # 2) Sample.get_health {| count := 2; start_time := 0 |}
     = ({| count := 2; start_time := 0 |},
        ok_json JsonRef.json (health_body 2 3), Ok tt).
Proof.
  assert (H1 : serve_forever JsonRef.json Sample.mixed_run (class_init 0)
               = ({| count := 2; start_time := 0 |},
                  snd (serve_forever JsonRef.json Sample.mixed_run (class_init 0))))
    by reflexivity.
  assert (H2 : Forall (fun o => snd o = Ok tt)
                 (snd (serve_forever JsonRef.json Sample.mixed_run (class_init 0))))
    by (vm_compute; repeat constructor).
  assert (H3 : Py.str_in "health" (path Sample.get_health) = true)
    by reflexivity.
  repeat (split; [assumption|]).
  exact (proj1 (requests_counts_successful_inserts JsonRef.json 0
                  Sample.mixed_run _ _ (7 # 2) Sample.get_health H1 H2 H3)).
Defined.

Lemma insert_echoes_given_id_witness :
  Py.str_in "vector" (path Sample.post_abc) = true
  /\ body_read Sample.post_abc 12 JsonRef.body_abc
  /\ loads JsonRef.json JsonRef.body_abc = Ok (PyDict [("id", PyStr "abc")])
  /\ Py.dict_get [("id", PyStr "abc")] "id" = Some (PyStr "abc")
  /\ sent (events_of (do_POST JsonRef.json 1 Sample.post_abc (class_init 0)))
     = ok_json JsonRef.json (inserted_body (PyStr "abc"))
  /\ outcome_of (do_POST JsonRef.json 1 Sample.post_abc (class_init 0)) = Ok tt.
Proof.
  assert (H1 : Py.str_in "vector" (path Sample.post_abc) = true) by reflexivity.
  assert (H2 : body_read Sample.post_abc 12 JsonRef.body_abc).
  { read_body "12". }
  assert (H3 : loads JsonRef.json JsonRef.body_abc
               = Ok (PyDict [("id", PyStr "abc")])) by reflexivity.
  assert (H4 : Py.dict_get [("id", PyStr "abc")] "id" = Some (PyStr "abc"))
    by reflexivity.
  repeat (split; [assumption|]).
  exact (insert_echoes_given_id JsonRef.json 1 Sample.post_abc (class_init 0)
           12 JsonRef.body_abc _ _ H1 H2 H3 H4).
Defined.

Lemma insert_synthesizes_id_witness :
  (Py.str_in "vector" (path Sample.post_no_length) = true
   /\ length_zero_or_absent Sample.post_no_length
   /\ sent (events_of (do_POST JsonRef.json 1 Sample.post_no_length
                         Sample.after_23))
      = ok_json JsonRef.json (inserted_body (PyStr "vec_24")))
  /\ (Py.str_in "vector" (path Sample.post_empty) = true
      /\ length_zero_or_absent Sample.post_empty
      /\ sent (events_of (do_POST JsonRef.json 1 Sample.post_empty
                            Sample.after_23))
         = ok_json JsonRef.json (inserted_body (PyStr "vec_24")))
  /\ (Py.str_in "vector" (path Sample.post_no_id) = true
      /\ body_read Sample.post_no_id 2 "{}"
      /\ loads JsonRef.json "{}" = Ok (PyDict [])
      /\ Py.dict_get [] "id" = None
      /\ sent (events_of (do_POST JsonRef.json 1 Sample.post_no_id
                            Sample.after_23))
         = ok_json JsonRef.json (inserted_body (PyStr "vec_24"))).
Proof.
  assert (A1 : Py.str_in "vector" (path Sample.post_no_length) = true)
    by reflexivity.
  assert (A2 : length_zero_or_absent Sample.post_no_length)
    by (left; reflexivity).
  assert (B1 : Py.str_in "vector" (path Sample.post_empty) = true)
    by reflexivity.
  assert (B2 : length_zero_or_absent Sample.post_empty)
    by (right; exists "0"; split; reflexivity).
  assert (C1 : Py.str_in "vector" (path Sample.post_no_id) = true)
    by reflexivity.
  assert (C2 : body_read Sample.post_no_id 2 "{}").
  { read_body "2". }
  assert (C3 : loads JsonRef.json "{}" = Ok (PyDict [])) by reflexivity.
  assert (C4 : Py.dict_get [] "id" = None) by reflexivity.
  split; [|split].
  - repeat (split; [assumption|]).
    exact (proj1 (proj1 (insert_synthesizes_id JsonRef.json 1
                           Sample.post_no_length Sample.after_23 A1)
                    A2 JsonRef.ref_loads)).
  - repeat (split; [assumption|]).
    exact (proj1 (proj1 (insert_synthesizes_id JsonRef.json 1
                           Sample.post_empty Sample.after_23 B1)
                    B2 JsonRef.ref_loads)).
  - repeat (split; [assumption|]).
    exact (proj1 (proj2 (insert_synthesizes_id JsonRef.json 1
                           Sample.post_no_id Sample.after_23 C1)
                    2 "{}" [] C2 C3 C4)).
Defined.

Lemma health_response_witness :
  Py.str_in "health" (path Sample.get_health) = true
  /\ (start_time Sample.after_23 <= 11 # 2)%Q
  /\ do_GET JsonRef.json (11 # 2) Sample.get_health Sample.after_23
     = (Sample.after_23, ok_json JsonRef.json (health_body 23 5), Ok tt).
Proof.
  assert (H1 : Py.str_in "health" (path Sample.get_health) = true)
    by reflexivity.
  assert (H2 : (start_time Sample.after_23 <= 11 # 2)%Q)
    by (unfold Qle; simpl; lia).
  repeat (split; [assumption|]).
  exact (health_response JsonRef.json (11 # 2) Sample.get_health
           Sample.after_23 H1 H2).
Defined.

Lemma unmatched_routes_not_found_witness :
  (unmatched Sample.get_unknown
   /\ handle JsonRef.json 1 Sample.get_unknown Sample.after_23
      = (Sample.after_23, not_found, Ok tt))
  /\ (unmatched Sample.post_other
      /\ handle JsonRef.json 1 Sample.post_other Sample.after_23
         = (Sample.after_23, not_found, Ok tt))
  /\ (method Sample.get_health = GET
      /\ occurs_in "health" (path Sample.get_health)
      /\ handle JsonRef.json 1 Sample.get_health Sample.after_23
         = (Sample.after_23, ok_json JsonRef.json (health_body 23 1), Ok tt)).
Proof.
  split; [|split].
  - assert (H : unmatched Sample.get_unknown).
    { left. split; [reflexivity|]. intros H. apply str_in_spec in H.
      discriminate H. }
    split; [exact H|].
    exact (proj1 (proj1 (unmatched_routes_not_found JsonRef.json 1
                           Sample.get_unknown Sample.after_23)) H).
  - assert (H : unmatched Sample.post_other).
    { right. split; [reflexivity|]. intros H. apply str_in_spec in H.
      discriminate H. }
    split; [exact H|].
    exact (proj1 (proj1 (unmatched_routes_not_found JsonRef.json 1
                           Sample.post_other Sample.after_23)) H).
  - assert (H1 : method Sample.get_health = GET) by reflexivity.
    assert (H2 : occurs_in "health" (path Sample.get_health))
      by (exists "/api/v1/", ""; reflexivity).
    repeat (split; [assumption|]).
    exact (proj1 (proj2 (proj2 (proj2 (unmatched_routes_not_found
                                         JsonRef.json 1 Sample.get_health
                                         Sample.after_23)))) H1 H2).
Defined.

Lemma malformed_body_raises_witness :
  Py.str_in "vector" (path Sample.post_malformed) = true
  /\ body_read Sample.post_malformed 5 "{oops"
  /\ loads JsonRef.json "{oops" = Raise JSONDecodeError
  /\ outcome_of (do_POST JsonRef.json 1 Sample.post_malformed Sample.after_23)
     = Raise JSONDecodeError
  /\ events_of (do_POST JsonRef.json 1 Sample.post_malformed Sample.after_23)
     = []
  /\ statuses (events_of (do_POST JsonRef.json 1 Sample.post_malformed
                             Sample.after_23)) = [].
Proof.
  assert (H1 : Py.str_in "vector" (path Sample.post_malformed) = true)
    by reflexivity.
  assert (H2 : body_read Sample.post_malformed 5 "{oops").
  { read_body "5". }
  assert (H3 : loads JsonRef.json "{oops" = Raise JSONDecodeError)
    by reflexivity.
  repeat (split; [assumption|]).
  exact (malformed_body_raises JsonRef.json 1 Sample.post_malformed
           Sample.after_23 5 "{oops" JSONDecodeError H1 H2 H3).
Defined.

Lemma progress_line_every_25_witness :
  serve_forever JsonRef.json Sample.three_inserts Sample.after_23
  = ({| count := 26; start_time := 0 |},
     snd (serve_forever JsonRef.json Sample.three_inserts Sample.after_23))
  /\ Forall (fun x => is_insert (snd x) = true) Sample.three_inserts
  /\ Forall (fun o => snd o = Ok tt)
            (snd (serve_forever JsonRef.json Sample.three_inserts
                    Sample.after_23))
  /\ Forall (fun x => (start_time Sample.after_23 <= fst x)%Q)
            Sample.three_inserts
  /\ printed (events_of (do_POST JsonRef.json 12 Sample.post_no_length
                           {| count := 24; start_time := 0 |}))
     = expected_lines (count Sample.after_23 + Z.of_nat 1 + 1)
         (12 - start_time Sample.after_23)
  /\ expected_lines (count Sample.after_23 + Z.of_nat 1 + 1)
       (12 - start_time Sample.after_23)
     = ["Processed 25 vectors (2.1/sec)"]
  /\ Z.of_nat (List.length
                 (lines_of (snd (serve_forever JsonRef.json
                                   Sample.three_inserts Sample.after_23))))
     = (count Sample.after_23 + Z.of_nat (List.length Sample.three_inserts)) / 25
       - count Sample.after_23 / 25.
Proof.
  assert (H1 : serve_forever JsonRef.json Sample.three_inserts Sample.after_23
               = ({| count := 26; start_time := 0 |},
                  snd (serve_forever JsonRef.json Sample.three_inserts
                         Sample.after_23)))
    by reflexivity.
  assert (H2 : Forall (fun x => is_insert (snd x) = true) Sample.three_inserts)
    by (repeat constructor).
  assert (H3 : Forall (fun o => snd o = Ok tt)
                 (snd (serve_forever JsonRef.json Sample.three_inserts
                         Sample.after_23)))
    by (vm_compute; repeat constructor).
  assert (H4 : Forall (fun x => (start_time Sample.after_23 <= fst x)%Q)
                 Sample.three_inserts)
    by (repeat constructor; unfold Qle; simpl; lia).
  repeat (split; [assumption|]).
  pose proof (progress_line_every_25 JsonRef.json Sample.three_inserts
                Sample.after_23 _ _ H1 H2 H3 H4) as (P1 & P2).
  split; [|split; [vm_compute; reflexivity | exact P2]].
  exact (P1 1%nat 12%Q Sample.post_no_length
            (events_of (do_POST JsonRef.json 12 Sample.post_no_length
                          {| count := 24; start_time := 0 |}))
            (Ok tt) eq_refl eq_refl).
Defined.

Lemma health_is_read_only_witness :
  state_of (do_GET JsonRef.json 1 Sample.get_health Sample.after_23)
  = Sample.after_23
  /\ is_health Sample.get_health = true
  /\ count (state_of (handle JsonRef.json 1 Sample.get_health Sample.after_23))
     = count Sample.after_23
  /\ Forall (fun x => method (snd x) = GET)
            [(1%Q, Sample.get_health); (2%Q, Sample.get_unknown)]
  /\ fst (serve_forever JsonRef.json
            [(1%Q, Sample.get_health); (2%Q, Sample.get_unknown)]
            Sample.after_23)
     = Sample.after_23.
Proof.
  assert (H1 : is_health Sample.get_health = true) by reflexivity.
  assert (H2 : Forall (fun x => method (snd x) = GET)
                 [(1%Q, Sample.get_health); (2%Q, Sample.get_unknown)])
    by (repeat constructor).
  pose proof (health_is_read_only JsonRef.json 1 Sample.get_health
                Sample.after_23) as (P1 & P2 & P3).
  split; [exact P1|]. split; [exact H1|]. split; [exact (P2 H1)|].
  split; [exact H2|]. exact (P3 _ H2).
Defined.

Lemma health_never_decreases_witness :
  serve_forever JsonRef.json Sample.three_inserts Sample.after_23
  = ({| count := 26; start_time := 0 |},
     snd (serve_forever JsonRef.json Sample.three_inserts Sample.after_23))
  /\ is_health Sample.get_health = true
  /\ (9 <= 15)%Q
  /\ exists r1 u1 r2 u2,
       handle JsonRef.json 9 Sample.get_health Sample.after_23
       = (Sample.after_23, ok_json JsonRef.json (health_body r1 u1), Ok tt) /\
       handle JsonRef.json 15 Sample.get_health {| count := 26; start_time := 0 |}
       = ({| count := 26; start_time := 0 |},
          ok_json JsonRef.json (health_body r2 u2), Ok tt) /\
       r1 <= r2 /\ u1 <= u2.
Proof.
  assert (H1 : serve_forever JsonRef.json Sample.three_inserts Sample.after_23
               = ({| count := 26; start_time := 0 |},
                  snd (serve_forever JsonRef.json Sample.three_inserts
                         Sample.after_23)))
    by reflexivity.
  assert (H2 : is_health Sample.get_health = true) by reflexivity.
  assert (H3 : (9 <= 15)%Q) by (unfold Qle; simpl; lia).
  repeat (split; [assumption|]).
  exact (proj1 (health_never_decreases JsonRef.json Sample.three_inserts
                  Sample.after_23 _ _ 9 15 Sample.get_health Sample.get_health
                  H1 H2 H2 H3)).
Defined.

Lemma malformed_body_still_counts_witness :
  Py.str_in "vector" (path Sample.post_malformed) = true
  /\ body_read Sample.post_malformed 5 "{oops"
  /\ loads JsonRef.json "{oops" = Raise JSONDecodeError
  /\ count (state_of (do_POST JsonRef.json 1 Sample.post_malformed
                         Sample.after_23))
     = count Sample.after_23 + 1
  /\ do_POST JsonRef.json 1 Sample.post_malformed Sample.after_23
     = (bump Sample.after_23, [], Raise JSONDecodeError).
Proof.
  assert (H1 : Py.str_in "vector" (path Sample.post_malformed) = true)
    by reflexivity.
  assert (H2 : body_read Sample.post_malformed 5 "{oops").
  { read_body "5". }
  assert (H3 : loads JsonRef.json "{oops" = Raise JSONDecodeError)
    by reflexivity.
  repeat (split; [assumption|]).
  pose proof (malformed_body_still_counts JsonRef.json 1 Sample.post_malformed
                Sample.after_23 H1) as (P1 & P2).
  split; [exact P1 | exact (P2 5 "{oops" JSONDecodeError H2 H3)].
Defined.

(** * Further properties of the handlers *)

Section MoreIds.

Variable json : json_module.

Lemma vector_id_bad_length (self : request) (c : Z) (v : string) (e : exn) :
  Headers.get (headers self) "Content-Length" = Some v ->
  Py.int v = Raise e ->
  vector_id json self c = Raise e.
Proof. unfold vector_id. intros -> ->. reflexivity. Qed.

Lemma vector_id_read (self : request) (c n : Z) (v : string) :
  Headers.get (headers self) "Content-Length" = Some v ->
  Py.int v = Ok n ->
  n <> 0 ->
  vector_id json self c =
  match BufferedReader.read (can_allocate self) (rfile self) n with
  | Raise e => Raise e
  | Ok raw =>
      match loads json raw with
      | Raise e => Raise e
      | Ok data => Py.get data "id" (vec_id c)
      end
  end.
Proof.
  unfold vector_id. intros -> -> Hn.
  apply Z.eqb_neq in Hn. now rewrite Hn.
Qed.

End MoreIds.

Section MoreCalls.

Variable json : json_module.

(** Whatever the request, a call ends in one of two ways.  It returns, and
    then it has sent one complete response: the 404 without a body or a 200
    with a JSON body.  Or it raises, and then it is a vector insert, the
    counter has been incremented and nothing at all has been sent or
    printed. *)
Theorem call_sends_one_response_or_none
        (now : Q) (r : request) (s : ReliableMock) :
  (outcome_of (handle json now r s) = Ok tt /\
   (sent (events_of (handle json now r s)) = not_found \/
    exists v, sent (events_of (handle json now r s)) = ok_json json v))
  \/
  (exists e, handle json now r s = (bump s, [], Raise e) /\
             is_insert r = true).
Proof.
  unfold handle, is_insert. destruct (method r).
  - left. destruct (Py.str_in "health" (path r)) eqn:H.
    + rewrite do_GET_health by assumption. split; [reflexivity|].
      right. eexists. reflexivity.
    + rewrite do_GET_other by assumption. split; [reflexivity|].
      left. reflexivity.
  - destruct (Py.str_in "vector" (path r)) eqn:H.
    + rewrite do_POST_vector by assumption.
      destruct (vector_id json r (count s + 1)) as [id|e].
      * left. split; [reflexivity|]. right. exists (inserted_body id).
        cbn [events_of fst snd]. apply sent_insert_events.
      * right. exists e. split; reflexivity.
    + left. rewrite do_POST_other by assumption. split; [reflexivity|].
      left. reflexivity.
Qed.

(** A [Content-Length] value that [int] rejects ends the insert with the
    [ValueError] of [int]: the counter has been incremented, the body is
    neither read nor decoded, and nothing is sent. *)
Theorem bad_content_length_raises
        (now : Q) (self : request) (s : ReliableMock) (v : string) (e : exn) :
  Py.str_in "vector" (path self) = true ->
  Headers.get (headers self) "Content-Length" = Some v ->
  Py.int v = Raise e ->
  e = ValueError
  /\ forall decoder data,
       do_POST {| loads := decoder; dumps := dumps json |} now
               (with_rfile self data) s
       = (bump s, [], Raise ValueError).
Proof.
  intros Hp Hh Hi.
  assert (e = ValueError) as ->.
  { unfold Py.int in Hi.
    destruct (match Py.strip (list_ascii_of_string v) with
              | [] => _ | _ => _ end) as [negative ds].
    destruct (Py.digits 0 0 false ds) as [[z n]|]; [|congruence].
    destruct (n <=? Py.int_max_str_digits)%nat; congruence. }
  split; [reflexivity|]. intros decoder data.
  rewrite do_POST_vector by assumption.
  now rewrite (vector_id_bad_length _ (with_rfile self data) _ v _ Hh Hi).
Qed.


(** With [Content-Length: -1] the handler reads to the end of the stream:
    the call behaves as it does on the whole of the bytes received,
    whatever their number. *)
Theorem content_length_minus_one_reads_all
        (now : Q) (self : request) (s : ReliableMock) (v : string) :
  Py.str_in "vector" (path self) = true ->
  Headers.get (headers self) "Content-Length" = Some v ->
  Py.int v = Ok (-1) ->
  do_POST json now self s =
  match loads json (rfile self) with
  | Raise e => (bump s, [], Raise e)
  | Ok data =>
      match Py.get data "id" (vec_id (count s + 1)) with
      | Raise e => (bump s, [], Raise e)
      | Ok id =>
          (bump s,
           (ok_json json (inserted_body id) ++ progress now (bump s))%list,
           Ok tt)
      end
  end.
Proof.
  intros Hp Hh Hi.
  rewrite do_POST_vector by assumption.
  rewrite (vector_id_read json self _ (-1) v Hh Hi) by discriminate.
  cbn [BufferedReader.read Z.eqb Pos.eqb].
  destruct (loads json (rfile self)) as [data|e]; [|reflexivity].
  now destruct (Py.get data "id" _).
Qed.

Lemma substring_prefix (body extra : string) :
  String.substring 0 (String.length body) (body ++ extra) = body.
Proof.
  induction body as [|c body IH]; simpl.
  - now destruct extra.
  - now rewrite IH.
Qed.

(** The handler looks at the first [Content-Length] bytes only: bytes that
    follow them on the connection change nothing in the call. *)
Theorem bytes_after_content_length_ignored
        (now : Q) (self : request) (s : ReliableMock)
        (v : string) (n : Z) (body extra : string) :
  Headers.get (headers self) "Content-Length" = Some v ->
  Py.int v = Ok n ->
  0 <= n <= BufferedReader.maxsize ->
  Z.of_nat (String.length body) = n ->
  do_POST json now (with_rfile self (body ++ extra)) s
  = do_POST json now (with_rfile self body) s.
Proof.
  intros Hh Hi Hn Hl.
  destruct (Py.str_in "vector" (path self)) eqn:Hp.
  - rewrite !do_POST_vector by assumption.
    destruct (Z.eq_dec n 0) as [->|Hz].
    + assert (forall d, vector_id json (with_rfile self d) (count s + 1)
                        = Ok (vec_id (count s + 1))) as E.
      { intros d. apply vector_id_zero_or_absent. right. exists v. now split. }
      now rewrite !E.
    + assert (String.substring 0 (Z.to_nat n) (body ++ extra)
              = String.substring 0 (Z.to_nat n) body) as P.
      { replace (Z.to_nat n) with (String.length body) by lia.
        rewrite substring_prefix.
        replace body with (body ++ "") at 3
          by (clear; induction body; simpl; congruence).
        now rewrite substring_prefix. }
      rewrite !(vector_id_read json _ _ n v) by assumption.
      cbn [rfile can_allocate with_rfile]. unfold BufferedReader.read.
      destruct (Z.eqb_spec n (-1)); [lia|].
      destruct (Z.ltb_spec n 0); [lia|].
      now rewrite P.
  - now rewrite !do_POST_other by assumption.
Qed.

(** A call prints exactly when it is a vector insert that returns and
    brings the counter to a multiple of 25, and then one line, of the form
    [Processed <counter> vectors (<rate>/sec)].  GET requests, unmatched
    routes, inserts that raise and inserts at other counter values print
    nothing. *)
Theorem only_returning_inserts_print
        (now : Q) (r : request) (s : ReliableMock) :
  (is_insert r = true
   /\ outcome_of (handle json now r s) = Ok tt
   /\ (count s + 1) mod 25 = 0
   /\ exists rate,
        printed (events_of (handle json now r s))
        = ["Processed " ++ Py.str (count s + 1) ++ " vectors ("
             ++ rate ++ "/sec)"])
  \/
  (~ (is_insert r = true
      /\ outcome_of (handle json now r s) = Ok tt
      /\ (count s + 1) mod 25 = 0)
   /\ printed (events_of (handle json now r s)) = []).
Proof.
  unfold handle, is_insert. destruct (method r).
  - right. split; [intros [H _]; discriminate|].
    destruct (Py.str_in "health" (path r)) eqn:H.
    + now rewrite do_GET_health.
    + now rewrite do_GET_other.
  - destruct (Py.str_in "vector" (path r)) eqn:H.
    + rewrite do_POST_vector by assumption.
      destruct (vector_id json r (count s + 1)) as [id|e].
      * cbn [events_of outcome_of fst snd]. rewrite printed_app.
        cbn [ok_json printed flat_map app]. unfold progress.
        cbn [bump count start_time].
        destruct (Z.eqb_spec ((count s + 1) mod 25) 0) as [E|E].
        -- left. repeat split; try assumption.
           eexists. cbn [printed flat_map app]. unfold progress_line.
           reflexivity.
        -- right. split; [intros (_ & _ & E'); contradiction | reflexivity].
      * right. split; [intros (_ & E' & _); discriminate | reflexivity].
    + right. split; [intros [E' _]; discriminate|].
      now rewrite do_POST_other.
Qed.

End MoreCalls.

(** * Further properties of runs and of the script *)

Section MoreRuns.

Variable json : json_module.

Lemma str_inj (a b : Z) : Py.str a = Py.str b -> a = b.
Proof.
  unfold Py.str. intros H. apply DecimalZ.to_int_inj.
  assert (forall z, NilZero.int_of_string (NilZero.string_of_int (Z.to_int z))
                    = Some (Z.to_int z)) as R.
  { intros z. apply NilZero.isi; destruct z; simpl; try discriminate;
      intros [= E]; now apply DecimalPos.Unsigned.to_uint_nonnil in E. }
  apply (f_equal NilZero.int_of_string) in H. rewrite !R in H.
  now injection H.
Qed.

Lemma vec_id_inj (a b : Z) : vec_id a = vec_id b -> a = b.
Proof. unfold vec_id. intros [= H]. now apply str_inj. Qed.

Lemma inserts_cons (x : Q * request) (l : list (Q * request)) :
  inserts (x :: l) = (if is_insert (snd x) then 1 else 0) + inserts l.
Proof.
  unfold inserts. cbn [filter]. destruct (is_insert (snd x));
    cbn [List.length]; lia.
Qed.

Lemma inserts_nonneg (l : list (Q * request)) : 0 <= inserts l.
Proof. unfold inserts. lia. Qed.

Lemma inserts_firstn_lt (incoming : list (Q * request)) (i j : nat)
      (t : Q) (r : request) :
  nth_error incoming i = Some (t, r) ->
  is_insert r = true ->
  (i < j)%nat ->
  inserts (firstn i incoming) < inserts (firstn j incoming).
Proof.
  revert i j. induction incoming as [|x rest IH]; intros i j Hi Hr Hij.
  - destruct i; discriminate.
  - destruct j as [|j]; [lia|]. destruct i as [|i].
    + injection Hi as ->. cbn [firstn]. rewrite inserts_cons. cbn [snd].
      rewrite Hr. pose proof (inserts_nonneg (firstn j rest)).
      change (inserts []) with 0. lia.
    + cbn [firstn]. rewrite !inserts_cons.
      cbn [nth_error] in Hi.
      assert (inserts (firstn i rest) < inserts (firstn j rest))
        by (apply IH; [assumption | assumption | lia]).
      lia.
Qed.

(** The call for the i-th request runs on the attributes that the requests
    before it have left. *)
Lemma nth_call (incoming : list (Q * request)) (s : ReliableMock)
      (i : nat) (now : Q) (r : request) :
  nth_error incoming i = Some (now, r) ->
  let si := {| count := count s + inserts (firstn i incoming);
               start_time := start_time s |} in
  nth_error (snd (serve_forever json incoming s)) i
  = Some (events_of (handle json now r si), outcome_of (handle json now r si)).
Proof.
  revert s i. induction incoming as [|[t q] rest IH]; intros s i Hi.
  - destruct i; discriminate.
  - rewrite serve_forever_cons. cbn [snd]. destruct i as [|i].
    + injection Hi as -> ->. cbn [firstn nth_error].
      replace {| count := count s + inserts []; start_time := start_time s |}
        with s by (destruct s; unfold inserts; cbn; f_equal; lia).
      reflexivity.
    + cbn [nth_error] in *. cbn zeta in *. rewrite (IH _ _ Hi).
      cbn [firstn]. rewrite inserts_cons, handle_state. cbn [snd].
      destruct (is_insert q); cbn [bump count start_time].
      * now rewrite Z.add_assoc.
      * now rewrite Z.add_0_l.
Qed.

(** The counter counts the POST requests on a vector path, not the
    successful ones: after any run it has grown by the number of such
    requests, whether their calls returned or raised, and the start time is
    as before; a health request then reports that number. *)
Theorem counter_counts_every_vector_post
        (incoming : list (Q * request)) (s : ReliableMock) :
  fst (serve_forever json incoming s)
  = {| count := count s + inserts incoming; start_time := start_time s |}
  /\ forall now probe,
       is_health probe = true ->
       handle json now probe (fst (serve_forever json incoming s))
       = (fst (serve_forever json incoming s),
          ok_json json (health_body (count s + inserts incoming)
                          (Py.int_of_float (now - start_time s))),
          Ok tt).
Proof.
  split; [apply serve_forever_state|].
  intros now probe Hp. apply is_health_inv in Hp as [Hm Hp].
  rewrite handle_GET, do_GET_health by assumption.
  now rewrite serve_forever_state.
Qed.

(** Ids made up by the handler are never repeated: two inserts of one run
    that come without a body are answered with different [vec_] ids, the
    later one with the higher number, whatever was served in between. *)
Theorem synthesized_ids_distinct
        (incoming : list (Q * request)) (s : ReliableMock)
        (i j : nat) (ti tj : Q) (ri rj : request)
        (out_i out_j : list event) (res_i res_j : result unit) :
  (i < j)%nat ->
  nth_error incoming i = Some (ti, ri) ->
  nth_error incoming j = Some (tj, rj) ->
  is_insert ri = true -> length_zero_or_absent ri ->
  is_insert rj = true -> length_zero_or_absent rj ->
  nth_error (snd (serve_forever json incoming s)) i = Some (out_i, res_i) ->
  nth_error (snd (serve_forever json incoming s)) j = Some (out_j, res_j) ->
  exists ci cj,
    sent out_i = ok_json json (inserted_body (vec_id ci)) /\
    sent out_j = ok_json json (inserted_body (vec_id cj)) /\
    ci < cj /\ vec_id ci <> vec_id cj.
Proof.
  intros Hij Hi Hj Ii Zi Ij Zj Oi Oj.
  rewrite (nth_call _ _ _ _ _ Hi) in Oi. rewrite (nth_call _ _ _ _ _ Hj) in Oj.
  injection Oi as <- _. injection Oj as <- _.
  apply is_insert_inv in Ii as [Mi Pi]. apply is_insert_inv in Ij as [Mj Pj].
  rewrite !handle_POST by assumption.
  rewrite !do_POST_vector by assumption.
  rewrite !vector_id_zero_or_absent by assumption.
  cbn [events_of fst snd count]. rewrite !sent_insert_events.
  exists (count s + inserts (firstn i incoming) + 1),
         (count s + inserts (firstn j incoming) + 1).
  assert (inserts (firstn i incoming) < inserts (firstn j incoming)) as L.
  { apply (inserts_firstn_lt incoming i j ti ri); try assumption.
    unfold is_insert. now rewrite Mi. }
  repeat split; [lia|].
  intros E. apply vec_id_inj in E. lia.
Qed.

Lemma printed_progress_length (now : Q) (s : ReliableMock) :
  Z.of_nat (List.length (printed (progress now (bump s))))
  = (count s + 1) / 25 - count s / 25.
Proof.
  unfold progress. cbn [bump count start_time].
  destruct (Z.eqb_spec ((count s + 1) mod 25) 0) as [E|E];
    cbn [printed flat_map List.length app];
    Z.to_euclidean_division_equations; lia.
Qed.

Lemma printed_call_length (now : Q) (r : request) (s : ReliableMock) :
  Z.of_nat (List.length (printed (events_of (handle json now r s))))
  <= count (state_of (handle json now r s)) / 25 - count s / 25.
Proof.
  rewrite handle_state. unfold handle, is_insert. destruct (method r).
  - destruct (Py.str_in "health" (path r)) eqn:H.
    + rewrite do_GET_health by assumption. cbn. lia.
    + rewrite do_GET_other by assumption. cbn. lia.
  - destruct (Py.str_in "vector" (path r)) eqn:H.
    + rewrite do_POST_vector by assumption.
      destruct (vector_id json r (count s + 1)).
      * cbn [events_of fst snd]. rewrite printed_app.
        cbn [ok_json printed flat_map app].
        rewrite printed_progress_length. cbn [bump count]. lia.
      * cbn [events_of fst snd printed flat_map List.length bump count].
        Z.to_euclidean_division_equations; lia.
    + rewrite do_POST_other by assumption. cbn. lia.
Qed.

(** In any run, with failing inserts and other requests mixed in, the
    progress lines printed are at most the multiples of 25 that the counter
    has passed; an insert that raises when the counter reaches a multiple
    of 25 prints no line, and none is printed for it later. *)
Theorem progress_lines_bounded
        (incoming : list (Q * request)) (s : ReliableMock) :
  Z.of_nat (List.length (lines_of (snd (serve_forever json incoming s))))
  <= (count s + inserts incoming) / 25 - count s / 25.
Proof.
  revert s. induction incoming as [|[t q] rest IH]; intros s.
  - unfold inserts. cbn. rewrite Z.add_0_r. lia.
  - rewrite serve_forever_cons. cbn [snd]. unfold lines_of in *.
    cbn [flat_map fst]. rewrite length_app, Nat2Z.inj_add.
    pose proof (printed_call_length t q s) as H1.
    pose proof (IH (state_of (handle json t q s))) as H2.
    rewrite handle_state in H1, H2 |- *.
    rewrite inserts_cons. cbn [snd].
    destruct (is_insert q); cbn [bump count] in *.
    + replace (count s + (1 + inserts rest))
        with (count s + 1 + inserts rest) by lia. lia.
    + replace (count s + (0 + inserts rest))
        with (count s + inserts rest) by lia. lia.
Qed.

(** A clock reading that is not after the start time gives an [uptime] that
    is the elapsed time rounded up toward zero, not down: 0 as long as the
    clock is less than a second behind, and never a positive number. *)
Theorem uptime_when_clock_not_after_start
        (now : Q) (self : request) (s : ReliableMock) :
  Py.str_in "health" (path self) = true ->
  (now <= start_time s)%Q ->
  do_GET json now self s
  = (s, ok_json json (health_body (count s)
                        (Qceiling (now - start_time s))), Ok tt)
  /\ Qceiling (now - start_time s) <= 0
  /\ ((start_time s - 1 < now)%Q -> Qceiling (now - start_time s) = 0).
Proof.
  intros Hp Ht.
  assert (now - start_time s <= 0)%Q as Hle.
  { apply Qle_minus_iff. setoid_replace (0 + - (now - start_time s))%Q
      with (start_time s - now)%Q by ring.
    now apply elapsed_nonneg. }
  assert (Qceiling (now - start_time s) <= 0) as Hc.
  { change 0 with (Qceiling 0). now apply Qceiling_resp_le. }
  split; [|split].
  - rewrite do_GET_health by assumption. now rewrite int_of_float_neg.
  - exact Hc.
  - intros Hlt.
    pose proof (Qceiling_lt (now - start_time s)) as H.
    assert (inject_Z (-1) < now - start_time s)%Q as H1.
    { apply Qlt_minus_iff. apply Qlt_minus_iff in Hlt.
      setoid_replace (now - start_time s + - inject_Z (-1))%Q
        with (now + - (start_time s - 1))%Q by ring.
      exact Hlt. }
    assert (inject_Z (-1) < inject_Z (Qceiling (now - start_time s)))%Q as H2.
    { apply Qlt_le_trans with (now - start_time s)%Q; [assumption|].
      apply Qle_ceiling. }
    rewrite <- Zlt_Qlt in H2. lia.
Qed.

(** The rate is never computed by a division by zero: when the insert that
    brings the counter to a multiple of 25 runs at a clock reading not after
    the start time, the progress line shows the rate [0.0]. *)
Theorem rate_zero_when_no_time_elapsed
        (now : Q) (r : request) (s : ReliableMock) :
  is_insert r = true ->
  outcome_of (handle json now r s) = Ok tt ->
  (count s + 1) mod 25 = 0 ->
  (now <= start_time s)%Q ->
  printed (events_of (handle json now r s))
  = ["Processed " ++ Py.str (count s + 1) ++ " vectors (0.0/sec)"].
Proof.
  intros Hi Hok Hm Ht.
  destruct (insert_ok json now r s Hi Hok) as [id E]. rewrite E.
  cbn [events_of fst snd]. rewrite printed_app.
  cbn [ok_json printed flat_map app].
  unfold progress. cbn [bump count start_time].
  apply Z.eqb_eq in Hm. rewrite Hm.
  assert (Py.float_gt (now - start_time s) 0 = false) as ->.
  { unfold Py.float_gt. apply negb_false_iff. apply Qle_bool_iff.
    apply Qle_minus_iff. setoid_replace (0 + - (now - start_time s))%Q
      with (start_time s - now)%Q by ring.
    now apply elapsed_nonneg. }
  reflexivity.
Qed.

(** When the script is interrupted, its output is the banner, then the
    progress lines of the calls, then the shutdown line.  The number in the
    shutdown line is the number of POST requests on a vector path that were
    served, failed ones included and other requests left out, and there are
    at most a 25th as many progress lines. *)
Theorem shutdown_line_counts_vector_posts
        (created : Q) (incoming : list (Q * request)) :
  exists progress_lines,
    main json created (InterruptedAfter incoming)
    = ((banner ++ progress_lines ++ [shutdown_line (inserts incoming)])%list,
       ExitedNormally)
    /\ Z.of_nat (List.length progress_lines) <= inserts incoming / 25.
Proof.
  exists (lines_of (snd (serve_forever json incoming (class_init created)))).
  split.
  - unfold main.
    pose proof (serve_forever_state json incoming (class_init created)) as E.
    destruct (serve_forever json incoming (class_init created)) as [s outs].
    cbn [fst snd] in *. rewrite E. cbn [count class_init].
    now rewrite Z.add_0_l.
  - pose proof (progress_lines_bounded incoming (class_init created)) as H.
    cbn [count class_init] in H. rewrite Z.add_0_l in H.
    change (0 / 25) with 0 in H. lia.
Qed.

End MoreRuns.

Section MoreHeaders.

Variable json : json_module.

Lemma headers_get_same (hs hs' : list (string * string)) (name : string) :
  same_headers hs hs' -> Headers.get hs name = Headers.get hs' name.
Proof.
  induction 1 as [|[k v] [k' v'] l l' [Hk Hv] _ IH]; [reflexivity|].
  cbn [fst snd] in *. subst v'. cbn [Headers.get]. now rewrite Hk, IH.
Qed.

(** The [Content-Length] header is found whatever the case of the letters
    of its name, and the first header of that name is the one used: the
    call does not change when header names are written in another case. *)
Theorem header_names_ignore_case
        (now : Q) (self : request) (s : ReliableMock)
        (hs hs' : list (string * string)) :
  same_headers hs hs' ->
  handle json now (with_headers self hs) s
  = handle json now (with_headers self hs') s
  /\ forall k v rest,
       Headers.str_lower k = "content-length" ->
       Headers.get ((k, v) :: rest) "Content-Length" = Some v.
Proof.
  intros H. split.
  - unfold handle. cbn [method with_headers]. destruct (method self).
    + destruct (Py.str_in "health" (path self)) eqn:Hp.
      * now rewrite !do_GET_health by assumption.
      * now rewrite !do_GET_other by assumption.
    + destruct (Py.str_in "vector" (path self)) eqn:Hp.
      * rewrite !do_POST_vector by assumption.
        unfold vector_id. cbn [headers rfile with_headers].
        now rewrite (headers_get_same hs hs' _ H).
      * now rewrite !do_POST_other by assumption.
  - intros k v rest Hk. cbn [Headers.get]. now rewrite Hk.
Qed.

(** The clock has no part in the answer to an insert: the attributes after
    the call, what is sent and the outcome are the same at any two clock
    readings; only the rate in a progress line depends on the clock. *)
Theorem insert_response_independent_of_clock
        (now now' : Q) (self : request) (s : ReliableMock) :
  state_of (do_POST json now self s) = state_of (do_POST json now' self s)
  /\ sent (events_of (do_POST json now self s))
     = sent (events_of (do_POST json now' self s))
  /\ outcome_of (do_POST json now self s)
     = outcome_of (do_POST json now' self s)
  /\ List.length (printed (events_of (do_POST json now self s)))
     = List.length (printed (events_of (do_POST json now' self s))).
Proof.
  destruct (Py.str_in "vector" (path self)) eqn:Hp.
  - rewrite !do_POST_vector by assumption.
    destruct (vector_id json self (count s + 1)); [|repeat split].
    cbn [state_of events_of outcome_of fst snd].
    rewrite !sent_insert_events, !printed_app, !length_app.
    do 3 (split; [reflexivity|]). f_equal. unfold progress.
    now destruct (_ =? 0).
  - rewrite !do_POST_other by assumption. repeat split.
Qed.

End MoreHeaders.

(** ** The further properties on sample requests *)

Lemma counter_counts_every_vector_post_witness :
  is_health Sample.get_health = true
  /\ map snd (snd (serve_forever JsonRef.json MoreSamples.run_with_failure
                     (class_init 0)))
     = [Raise JSONDecodeError; Ok tt; Ok tt]
  /\ handle JsonRef.json 4 Sample.get_health
            (fst (serve_forever JsonRef.json MoreSamples.run_with_failure
                    (class_init 0)))
     = (fst (serve_forever JsonRef.json MoreSamples.run_with_failure
               (class_init 0)),
        ok_json JsonRef.json
          (health_body (count (class_init 0)
                        + inserts MoreSamples.run_with_failure)
             (Py.int_of_float (4 - start_time (class_init 0)))),
        Ok tt)
  /\ count (class_init 0) + inserts MoreSamples.run_with_failure = 2.
Proof.
  assert (H1 : is_health Sample.get_health = true) by reflexivity.
  split; [exact H1|]. split; [reflexivity|]. split; [|reflexivity].
  exact (proj2 (counter_counts_every_vector_post JsonRef.json
                  MoreSamples.run_with_failure (class_init 0))
           4%Q Sample.get_health H1).
Defined.

Lemma bad_content_length_raises_witness :
  Py.str_in "vector" (path MoreSamples.post_bad_length) = true
  /\ Headers.get (headers MoreSamples.post_bad_length) "Content-Length"
     = Some "twelve"
  /\ Py.int "twelve" = Raise ValueError
  /\ do_POST {| loads := JsonRef.ref_loads; dumps := dumps JsonRef.json |} 1
             (with_rfile MoreSamples.post_bad_length JsonRef.body_abc)
             Sample.after_23
     = (bump Sample.after_23, [], Raise ValueError).
Proof.
  assert (H1 : Py.str_in "vector" (path MoreSamples.post_bad_length) = true)
    by reflexivity.
  assert (H2 : Headers.get (headers MoreSamples.post_bad_length)
                 "Content-Length" = Some "twelve") by reflexivity.
  assert (H3 : Py.int "twelve" = Raise ValueError) by reflexivity.
  repeat (split; [assumption|]).
  exact (proj2 (bad_content_length_raises JsonRef.json 1
                  MoreSamples.post_bad_length Sample.after_23 "twelve"
                  ValueError H1 H2 H3)
           JsonRef.ref_loads JsonRef.body_abc).
Defined.


Lemma content_length_minus_one_reads_all_witness :
  Py.str_in "vector" (path MoreSamples.post_minus_one) = true
  /\ Headers.get (headers MoreSamples.post_minus_one) "Content-Length"
     = Some "-1"
  /\ Py.int "-1" = Ok (-1)
  /\ do_POST JsonRef.json 1 MoreSamples.post_minus_one Sample.after_23
     = (bump Sample.after_23,
        ok_json JsonRef.json (inserted_body (PyStr "abc")), Ok tt).
Proof.
  assert (H1 : Py.str_in "vector" (path MoreSamples.post_minus_one) = true)
    by reflexivity.
  assert (H2 : Headers.get (headers MoreSamples.post_minus_one)
                 "Content-Length" = Some "-1") by reflexivity.
  assert (H3 : Py.int "-1" = Ok (-1)) by reflexivity.
  repeat (split; [assumption|]).
  exact (content_length_minus_one_reads_all JsonRef.json 1
           MoreSamples.post_minus_one Sample.after_23 "-1" H1 H2 H3).
Defined.

Lemma bytes_after_content_length_ignored_witness :
  Headers.get (headers Sample.post_abc) "Content-Length" = Some "12"
  /\ Py.int "12" = Ok 12
  /\ 0 <= 12 <= BufferedReader.maxsize
  /\ Z.of_nat (String.length JsonRef.body_abc) = 12
  /\ do_POST JsonRef.json 1
             (with_rfile Sample.post_abc (JsonRef.body_abc ++ "GET / HTTP/1.0"))
             Sample.after_23
     = do_POST JsonRef.json 1 (with_rfile Sample.post_abc JsonRef.body_abc)
               Sample.after_23.
Proof.
  assert (H1 : Headers.get (headers Sample.post_abc) "Content-Length"
               = Some "12") by reflexivity.
  assert (H2 : Py.int "12" = Ok 12) by reflexivity.
  assert (H3 : 0 <= 12 <= BufferedReader.maxsize)
    by (unfold BufferedReader.maxsize; lia).
  assert (H4 : Z.of_nat (String.length JsonRef.body_abc) = 12) by reflexivity.
  repeat (split; [assumption|]).
  exact (bytes_after_content_length_ignored JsonRef.json 1 Sample.post_abc
           Sample.after_23 "12" 12 JsonRef.body_abc "GET / HTTP/1.0"
           H1 H2 H3 H4).
Defined.

Lemma insert_non_object_raises_witness :
  Py.str_in "vector" (path Sample.post_array) = true
  /\ body_read Sample.post_array 3 "[1]"
  /\ loads JsonRef.json "[1]" = Ok (PyList [PyInt 1])
  /\ (forall d, PyList [PyInt 1] <> PyDict d)
  /\ do_POST JsonRef.json 1 Sample.post_array Sample.after_23
     = (bump Sample.after_23, [], Raise AttributeError).
Proof.
  assert (H1 : Py.str_in "vector" (path Sample.post_array) = true)
    by reflexivity.
  assert (H2 : body_read Sample.post_array 3 "[1]").
  { read_body "3". }
  assert (H3 : loads JsonRef.json "[1]" = Ok (PyList [PyInt 1]))
    by reflexivity.
  assert (H4 : forall d, PyList [PyInt 1] <> PyDict d) by discriminate.
  repeat (split; [assumption|]).
  exact (insert_non_object_raises JsonRef.json 1 Sample.post_array
           Sample.after_23 3 "[1]" (PyList [PyInt 1]) H1 H2 H3 H4).
Defined.

Lemma synthesized_ids_distinct_witness :
  (0 < 2)%nat
  /\ nth_error Sample.three_inserts 0 = Some (10%Q, Sample.post_empty)
  /\ nth_error Sample.three_inserts 2 = Some (14%Q, Sample.post_empty)
  /\ is_insert Sample.post_empty = true
  /\ length_zero_or_absent Sample.post_empty
  /\ exists ci cj,
       sent (fst (nth 0 (snd (serve_forever JsonRef.json Sample.three_inserts
                                Sample.after_23)) ([], Ok tt)))
       = ok_json JsonRef.json (inserted_body (vec_id ci)) /\
       sent (fst (nth 2 (snd (serve_forever JsonRef.json Sample.three_inserts
                                Sample.after_23)) ([], Ok tt)))
       = ok_json JsonRef.json (inserted_body (vec_id cj)) /\
       ci < cj /\ vec_id ci <> vec_id cj.
Proof.
  assert (H0 : (0 < 2)%nat) by lia.
  assert (H1 : nth_error Sample.three_inserts 0 = Some (10%Q, Sample.post_empty))
    by reflexivity.
  assert (H2 : nth_error Sample.three_inserts 2 = Some (14%Q, Sample.post_empty))
    by reflexivity.
  assert (H3 : is_insert Sample.post_empty = true) by reflexivity.
  assert (H4 : length_zero_or_absent Sample.post_empty)
    by (right; exists "0"; split; reflexivity).
  repeat (split; [assumption|]).
  exact (synthesized_ids_distinct JsonRef.json Sample.three_inserts
           Sample.after_23 0 2 10 14 Sample.post_empty Sample.post_empty
           _ _ _ _ H0 H1 H2 H3 H4 H3 H4 eq_refl eq_refl).
Defined.

Lemma uptime_when_clock_not_after_start_witness :
  Py.str_in "health" (path Sample.get_health) = true
  /\ ((19 # 2) <= start_time MoreSamples.after_24)%Q
  /\ (start_time MoreSamples.after_24 - 1 < (19 # 2))%Q
  /\ do_GET JsonRef.json (19 # 2) Sample.get_health MoreSamples.after_24
     = (MoreSamples.after_24,
        ok_json JsonRef.json
          (health_body 24 (Qceiling ((19 # 2) - start_time MoreSamples.after_24))),
        Ok tt)
  /\ Qceiling ((19 # 2) - start_time MoreSamples.after_24) = 0.
Proof.
  assert (H1 : Py.str_in "health" (path Sample.get_health) = true)
    by reflexivity.
  assert (H2 : ((19 # 2) <= start_time MoreSamples.after_24)%Q)
    by (unfold Qle; simpl; lia).
  assert (H3 : (start_time MoreSamples.after_24 - 1 < (19 # 2))%Q)
    by (unfold Qlt; simpl; lia).
  repeat (split; [assumption|]).
  pose proof (uptime_when_clock_not_after_start JsonRef.json (19 # 2)
                Sample.get_health MoreSamples.after_24 H1 H2) as (P1 & _ & P3).
  split; [exact P1 | exact (P3 H3)].
Defined.

Lemma rate_zero_when_no_time_elapsed_witness :
  is_insert Sample.post_empty = true
  /\ outcome_of (handle JsonRef.json 10 Sample.post_empty MoreSamples.after_24)
     = Ok tt
  /\ (count MoreSamples.after_24 + 1) mod 25 = 0
  /\ (10 <= start_time MoreSamples.after_24)%Q
  /\ printed (events_of (handle JsonRef.json 10 Sample.post_empty
                           MoreSamples.after_24))
     = ["Processed " ++ Py.str (count MoreSamples.after_24 + 1)
          ++ " vectors (0.0/sec)"].
Proof.
  assert (H1 : is_insert Sample.post_empty = true) by reflexivity.
  assert (H2 : outcome_of (handle JsonRef.json 10 Sample.post_empty
                             MoreSamples.after_24) = Ok tt) by reflexivity.
  assert (H3 : (count MoreSamples.after_24 + 1) mod 25 = 0) by reflexivity.
  assert (H4 : (10 <= start_time MoreSamples.after_24)%Q)
    by (unfold Qle; simpl; lia).
  repeat (split; [assumption|]).
  exact (rate_zero_when_no_time_elapsed JsonRef.json 10 Sample.post_empty
           MoreSamples.after_24 H1 H2 H3 H4).
Defined.

Lemma header_names_ignore_case_witness :
  same_headers [("CONTENT-LENGTH", "12")] [("content-length", "12")]
  /\ handle JsonRef.json 1
            (with_headers Sample.post_abc [("CONTENT-LENGTH", "12")])
            Sample.after_23
     = handle JsonRef.json 1
              (with_headers Sample.post_abc [("content-length", "12")])
              Sample.after_23.
Proof.
  assert (H1 : same_headers [("CONTENT-LENGTH", "12")]
                 [("content-length", "12")])
    by (repeat constructor).
  split; [exact H1|].
  exact (proj1 (header_names_ignore_case JsonRef.json 1 Sample.post_abc
                  Sample.after_23 _ _ H1)).
Defined.
